(** * A shallow embedding of the DAP client of [debug.py]

    The development follows the source file top to bottom:

    - [Text]: Python [str] and [bytes] values, the string methods the
      client calls ([in], [split], [join], [str(int)]) and the UTF-8 codec;
    - [Py]: the exception classes the client can meet and the monad of a
      method call (a state, and a return, an exception or a wait without
      end);
    - [Json]: the Python values that travel as JSON, [json.dumps] with its
      default options, and the dictionary and indexing operations;
    - [Net]: the operating-system objects the client drives (TCP sockets,
      the debuggee process), as a store addressed by handles;
    - [Dap]: [DAPClient] and [DAPDebugger], method by method; the [print]
      of [send_request], which stands between the counter and the socket,
      is there with the exception it can raise, the other calls of [print]
      and [time.sleep] are left out but for the expressions they evaluate,
      which can raise;
    - [Ref]: a reference reading of the library functions the client
      imports ([json.loads], [int], [os.path.abspath]) and of the limits
      of the interpreter, used to run the examples only: every theorem
      holds for any such functions;
    - [Flat], [Effects]: what a read sees of a byte stream, and what a call
      may change in the client and in the world;
    - [Sample]: a scripted adapter and the messages of the examples.

    The properties follow, from the text operations up to the session.

    Python [int] is [Z]; a byte and a Unicode code point are both [N];
    a [str] is the list of its code points and a [bytes] object the list of
    its bytes.  The client never builds or inspects a [float], so the value
    type has none. *)

From Stdlib Require Import ZArith NArith List String Ascii Bool Lia Sorted.
From stdpp Require Import base option list.

Set Default Proof Using "Type".

(* ===================================================================== *)
(** * Text: str, bytes and the codec *)
(* ===================================================================== *)

Module Text.

Definition pystr := list N.
Definition bytes := list N.

(** A literal of the source, character by character. *)
Definition lit (s : string) : list N :=
  List.map N_of_ascii (list_ascii_of_string s).

(** [s.startswith(p)] *)
Fixpoint startswith (p s : list N) : bool :=
  match p, s with
  | [], _ => true
  | _ :: _, [] => false
  | a :: p', b :: s' => N.eqb a b && startswith p' s'
  end.

(** [sub in s] on [str] and on [bytes] *)
Fixpoint contains (sub s : list N) : bool :=
  startswith sub s ||
  match s with
  | [] => false
  | _ :: s' => contains sub s'
  end.

(** [s.split(sep)] for a non-empty [sep]: the pieces between the
    non-overlapping occurrences of [sep], scanning from the left.  [skip]
    counts the characters of a separator still to be passed over and [cur]
    holds the current piece, reversed. *)
Fixpoint split_go (sep : pystr) (skip : nat) (cur : pystr) (s : pystr)
  : list pystr :=
  match s with
  | [] => [rev cur]
  | c :: s' =>
      match skip with
      | S k => split_go sep k cur s'
      | O =>
          if startswith sep s
          then rev cur :: split_go sep (Nat.pred (length sep)) [] s'
          else split_go sep O (c :: cur) s'
      end
  end.

Definition split (sep s : pystr) : list pystr := split_go sep O [] s.

(** [sep.join(items)] *)
Fixpoint join (sep : pystr) (items : list pystr) : pystr :=
  match items with
  | [] => []
  | [x] => x
  | x :: rest => x ++ sep ++ join sep rest
  end.

(** [str(n)] for an [int]: decimal digits, most significant first. *)
Fixpoint digits_go (fuel : nat) (n : N) (acc : pystr) : pystr :=
  match fuel with
  | O => acc
  | S f =>
      let acc' := (48 + n mod 10)%N :: acc in
      if (n / 10 =? 0)%N then acc' else digits_go f (n / 10)%N acc'
  end.

Definition str_of_N (n : N) : pystr := digits_go (S (N.size_nat n)) n [].

Definition str_of_int (z : Z) : pystr :=
  if (z <? 0)%Z then 45%N :: str_of_N (Z.to_N (- z)) else str_of_N (Z.to_N z).

(** [s.encode("utf-8")]: one to four bytes per code point; a surrogate
    (U+D800..U+DFFF) raises UnicodeEncodeError, here [None]. *)
Definition utf8_encode_cp (c : N) : option bytes :=
  if (c <? 128)%N then Some [c]
  else if (c <? 2048)%N then
    Some [N.lor 192 (N.shiftr c 6); N.lor 128 (N.land c 63)]
  else if (c <? 65536)%N then
    if (55296 <=? c)%N && (c <=? 57343)%N then None
    else Some [N.lor 224 (N.shiftr c 12);
               N.lor 128 (N.land (N.shiftr c 6) 63);
               N.lor 128 (N.land c 63)]
  else if (c <? 1114112)%N then
    Some [N.lor 240 (N.shiftr c 18);
          N.lor 128 (N.land (N.shiftr c 12) 63);
          N.lor 128 (N.land (N.shiftr c 6) 63);
          N.lor 128 (N.land c 63)]
  else None.

Fixpoint utf8_encode (s : pystr) : option bytes :=
  match s with
  | [] => Some []
  | c :: s' =>
      match utf8_encode_cp c, utf8_encode s' with
      | Some b, Some bs => Some (b ++ bs)
      | _, _ => None
      end
  end.

(** [b.decode("utf-8")], strict: overlong forms, surrogates, values above
    U+10FFFF, stray continuation bytes and truncated sequences all raise
    UnicodeDecodeError, here [None]. *)
Definition in_range (lo hi b : N) : bool := (lo <=? b)%N && (b <=? hi)%N.

Definition tail6 (b : N) : N := N.land b 63.

Fixpoint utf8_decode (bs : bytes) : option pystr :=
  match bs with
  | [] => Some []
  | b0 :: t0 =>
      if (b0 <? 128)%N then cons b0 <$> utf8_decode t0
      else if in_range 194 223 b0 then
        match t0 with
        | b1 :: t1 =>
            if in_range 128 191 b1
            then cons (N.lor (N.shiftl (N.land b0 31) 6) (tail6 b1))
                   <$> utf8_decode t1
            else None
        | _ => None
        end
      else if in_range 224 239 b0 then
        match t0 with
        | b1 :: b2 :: t2 =>
            let lo := if (b0 =? 224)%N then 160%N else 128%N in
            let hi := if (b0 =? 237)%N then 159%N else 191%N in
            if in_range lo hi b1 && in_range 128 191 b2
            then cons (N.lor (N.shiftl (N.land b0 15) 12)
                         (N.lor (N.shiftl (tail6 b1) 6) (tail6 b2)))
                   <$> utf8_decode t2
            else None
        | _ => None
        end
      else if in_range 240 244 b0 then
        match t0 with
        | b1 :: b2 :: b3 :: t3 =>
            let lo := if (b0 =? 240)%N then 144%N else 128%N in
            let hi := if (b0 =? 244)%N then 143%N else 191%N in
            if in_range lo hi b1 && in_range 128 191 b2 && in_range 128 191 b3
            then cons (N.lor (N.shiftl (N.land b0 7) 18)
                         (N.lor (N.shiftl (tail6 b1) 12)
                            (N.lor (N.shiftl (tail6 b2) 6) (tail6 b3))))
                   <$> utf8_decode t3
            else None
        | _ => None
        end
      else None
  end.

(** A string all of whose characters are ASCII (code point below 128). *)
Definition is_ascii (s : list N) : bool := forallb (fun c => (c <? 128)%N) s.

(** A decimal digit. *)
Definition digit (c : N) : Prop := (48 <= c <= 57)%N.

End Text.

(* ===================================================================== *)
(** * Exceptions and outcomes *)
(* ===================================================================== *)

Module Py.

(** The exception classes the client can meet.  The source defines none of
    its own: every one of these is raised by the interpreter or by the
    standard library. *)
Inductive exn :=
| AttributeError
| IndexError
| KeyError
| TypeError
| ValueError
| JSONDecodeError
| UnicodeDecodeError
| UnicodeEncodeError
| RecursionError
| OSError
| ConnectionRefusedError
| ConnectionResetError.



(** How a call ends: it returns, it raises, it blocks for ever inside a
    system call, or the model ran out of loop iterations. *)
Inductive outcome (A : Type) :=
| Ok (a : A)
| Raise (e : exn)
| Blocked
| OutOfFuel.

Arguments Ok {A} a.
Arguments Raise {A} e.
Arguments Blocked {A}.
Arguments OutOfFuel {A}.



(** Computations over a state [S]: the state reached is kept whatever the
    outcome, as the effects already performed are. *)
Definition M (S A : Type) : Type := S -> outcome A * S.

Definition ret {S A} (a : A) : M S A := fun s => (Ok a, s).

Definition bind {S A B} (m : M S A) (k : A -> M S B) : M S B :=
  fun s =>
    match m s with
    | (Ok a, s') => k a s'
    | (Raise e, s') => (Raise e, s')
    | (Blocked, s') => (Blocked, s')
    | (OutOfFuel, s') => (OutOfFuel, s')
    end.

Definition raise {S A} (e : exn) : M S A := fun s => (Raise e, s).

Definition out_of_fuel {S A} : M S A := fun s => (OutOfFuel, s).

(** A pure operation that may raise, run inside a computation. *)
Definition lift {S A} (o : outcome A) : M S A := fun s => (o, s).

Definition get {S} : M S S := fun s => (Ok s, s).

Definition modify {S} (f : S -> S) : M S unit := fun s => (Ok tt, f s).

(** [try: body / except Exception: pass / finally: final].  Every
    exception of [exn] derives from [Exception], so the handler takes them
    all; [final] runs once [body] has returned or raised, and does not run
    when [body] never comes to an end. *)
Definition try_except_finally {S} (body : M S unit) (final : M S unit)
  : M S unit :=
  fun s =>
    match body s with
    | (Ok _, s') => final s'
    | (Raise _, s') => final s'
    | (Blocked, s') => (Blocked, s')
    | (OutOfFuel, s') => (OutOfFuel, s')
    end.

(** Run a computation on a part of the state. *)
Definition zoom {S T A} (proj : S -> T) (upd : T -> S -> S) (m : M T A)
  : M S A :=
  fun s => let '(o, t) := m (proj s) in (o, upd t s).

End Py.

Declare Scope py_scope.
Delimit Scope py_scope with py.
Notation "'let*' x ':=' m 'in' k" := (Py.bind m (fun x => k))
  (at level 10, x pattern, m at level 100, k at level 200) : py_scope.
Notation "'do' m 'in' k" := (Py.bind m (fun _ => k))
  (at level 10, m at level 100, k at level 200) : py_scope.

(* ===================================================================== *)
(** * Json: the values and json.dumps *)
(* ===================================================================== *)

Module Json.
Import Text Py.

(** The Python values that [json.loads] builds and [json.dumps] accepts,
    floats apart.  A [dict] is the list of its items in insertion order,
    with [str] keys, as every dict of this program is. *)
#[warnings="-register-all"]
Inductive value :=
| VNone
| VBool (b : bool)
| VInt (z : Z)
| VStr (s : pystr)
| VList (l : list value)
| VDict (d : list (pystr * value)).

(** Induction on values, with the hypothesis available for every item of
    a list and every value of a dict. *)
Section value_induction.
Variable P : value -> Prop.
Hypothesis HNone : P VNone.
Hypothesis HBool : forall b, P (VBool b).
Hypothesis HInt : forall z, P (VInt z).
Hypothesis HStr : forall s, P (VStr s).
Hypothesis HList : forall l, Forall P l -> P (VList l).
Hypothesis HDict : forall d, Forall (fun kv => P (snd kv)) d -> P (VDict d).

Fixpoint value_induction (v : value) : P v :=
  match v with
  | VNone => HNone
  | VBool b => HBool b
  | VInt z => HInt z
  | VStr s => HStr s
  | VList l =>
      HList l
        ((fix items (l : list value) : Forall P l :=
            match l with
            | [] => @List.Forall_nil _ P
            | x :: r =>
                @List.Forall_cons _ P x r (value_induction x) (items r)
            end) l)
  | VDict d =>
      HDict d
        ((fix items (d : list (pystr * value))
            : Forall (fun kv => P (snd kv)) d :=
            match d with
            | [] => @List.Forall_nil _ (fun kv => P (snd kv))
            | kv :: r =>
                @List.Forall_cons _ (fun kv => P (snd kv)) kv r
                  (value_induction (snd kv)) (items r)
            end) d)
  end.
End value_induction.

(** [bool(v)], as [or] and [if] use it. *)
Definition truthy (v : value) : bool :=
  match v with
  | VNone => false
  | VBool b => b
  | VInt z => negb (z =? 0)%Z
  | VStr s => negb (Nat.eqb (length s) 0)
  | VList l => negb (Nat.eqb (length l) 0)
  | VDict d => negb (Nat.eqb (length d) 0)
  end.

(** [a or b] *)
Definition py_or (a b : value) : value := if truthy a then a else b.

Definition str_eqb (a b : pystr) : bool :=
  bool_decide (a = b).

(** [v == s] for a [str] [s]: only an equal [str] compares equal. *)
Definition eq_str (v : value) (s : pystr) : bool :=
  match v with
  | VStr t => str_eqb t s
  | _ => false
  end.

(** Lookup of a key in a dict. *)
Fixpoint lookup_key (k : pystr) (d : list (pystr * value)) : option value :=
  match d with
  | [] => None
  | (k', v) :: d' => if str_eqb k' k then Some v else lookup_key k d'
  end.

(** [v.get(k, default)]: only a dict has the method. *)
Definition py_get (v : value) (k : pystr) (default : value) : outcome value :=
  match v with
  | VDict d =>
      match lookup_key k d with
      | Some x => Ok x
      | None => Ok default
      end
  | _ => Raise AttributeError
  end.

(** [v[k]] for a [str] key: a dict answers, every other value raises
    TypeError (a list or a str wants an integer index, the others are not
    subscriptable). *)
Definition getitem_key (v : value) (k : pystr) : outcome value :=
  match v with
  | VDict d =>
      match lookup_key k d with
      | Some x => Ok x
      | None => Raise KeyError
      end
  | _ => Raise TypeError
  end.

(** Position of index [i] in a sequence of length [n], negative indices
    counting from the end. *)
Definition seq_index (n : nat) (i : Z) : option nat :=
  let j := if (i <? 0)%Z then (i + Z.of_nat n)%Z else i in
  if (0 <=? j)%Z && (j <? Z.of_nat n)%Z then Some (Z.to_nat j) else None.

(** [v[i]] for an [int] index. *)
Definition getitem_idx (v : value) (i : Z) : outcome value :=
  match v with
  | VList l =>
      match seq_index (length l) i with
      | Some j =>
          match l !! j with
          | Some x => Ok x
          | None => Raise IndexError
          end
      | None => Raise IndexError
      end
  | VStr s =>
      match seq_index (length s) i with
      | Some j =>
          match s !! j with
          | Some c => Ok (VStr [c])
          | None => Raise IndexError
          end
      | None => Raise IndexError
      end
  | VDict _ => Raise KeyError
  | _ => Raise TypeError
  end.

(** [for x in v]: the items of a list, the keys of a dict, the characters
    of a str; the other values are not iterable. *)
Definition py_iter (v : value) : outcome (list value) :=
  match v with
  | VList l => Ok l
  | VDict d => Ok (List.map (fun kv => VStr (fst kv)) d)
  | VStr s => Ok (List.map (fun c => VStr [c]) s)
  | _ => Raise TypeError
  end.

(** ** json.dumps

    With the default options: [ensure_ascii=True], separators [", "] and
    [": "], no indentation, keys in insertion order. *)

Definition hexdigit (d : N) : N :=
  if (d <? 10)%N then (48 + d)%N else (87 + d)%N.

(** ['\\u{0:04x}'.format(n)] for [n < 0x10000] *)
Definition u_escape (n : N) : pystr :=
  lit "\u" ++
  [hexdigit (N.shiftr n 12 mod 16); hexdigit (N.shiftr n 8 mod 16);
   hexdigit (N.shiftr n 4 mod 16); hexdigit (n mod 16)]%N.

(** The replacement of one character inside a JSON string: the short
    escapes, printable ASCII as it is, [\uXXXX] for the rest, a surrogate
    pair above the basic plane. *)
Definition escape_char (c : N) : pystr :=
  if (c =? 34)%N then [92; 34]%N
  else if (c =? 92)%N then lit "\\"
  else if (c =? 10)%N then lit "\n"
  else if (c =? 13)%N then lit "\r"
  else if (c =? 9)%N then lit "\t"
  else if (c =? 8)%N then lit "\b"
  else if (c =? 12)%N then lit "\f"
  else if (32 <=? c)%N && (c <=? 126)%N then [c]
  else if (c <? 65536)%N then u_escape c
  else
    let n := (c - 65536)%N in
    u_escape (N.lor 55296 (N.land (N.shiftr n 10) 1023)) ++
    u_escape (N.lor 56320 (N.land n 1023)).

(** [encode_basestring_ascii(s)]: the quoted, escaped string. *)
Definition encode_str (s : pystr) : pystr :=
  34%N :: List.concat (List.map escape_char s) ++ [34%N].

Fixpoint dumps (v : value) : pystr :=
  match v with
  | VNone => lit "null"
  | VBool true => lit "true"
  | VBool false => lit "false"
  | VInt z => str_of_int z
  | VStr s => encode_str s
  | VList l => lit "[" ++ join (lit ", ") (List.map dumps l) ++ lit "]"
  | VDict d =>
      lit "{" ++
      join (lit ", ")
        (List.map (fun kv =>
                     match kv with
                     | (k, x) => encode_str k ++ lit ": " ++ dumps x
                     end) d) ++
      lit "}"
  end.

End Json.

(* ===================================================================== *)
(** * Net: sockets and the debuggee process *)
(* ===================================================================== *)

Module Net.
Import Text Py.

(** What a connection does once the peer's data is used up: the peer has
    closed its side ([recv] returns [b""], again and again), it has reset
    the connection ([recv] raises), or it stays connected and silent
    ([recv] never returns). *)
Inductive ending := PeerClosed | PeerReset | PeerSilent.

(** A TCP socket.  [inbound] holds the peer's bytes in the segments in
    which they arrive, [outbound] the buffers handed to [send], oldest
    first; a [send] on a connected socket takes its whole buffer.  The two
    counters record the calls made on the object. *)
Record sock := {
  connected : bool;
  inbound : list bytes;
  at_end : ending;
  outbound : list bytes;
  recv_calls : nat;
  close_calls : nat
}.

(** A child process, with the calls made on its [Popen] object. *)
Record proc := {
  terminate_calls : nat;
  wait_calls : nat
}.

(** The operating system as the client sees it.  Sockets and processes are
    addressed by their position; [peer host port] is what a connection to
    that address will receive, [None] when nobody listens there;
    [can_spawn] tells whether a child process can be started. *)
Record world := {
  sockets : list sock;
  procs : list proc;
  peer : pystr -> Z -> option (list bytes * ending);
  can_spawn : bool
}.

Definition set_sockets (f : list sock -> list sock) (w : world) : world :=
  {| sockets := f (sockets w); procs := procs w; peer := peer w;
     can_spawn := can_spawn w |}.

Definition set_procs (f : list proc -> list proc) (w : world) : world :=
  {| sockets := sockets w; procs := f (procs w); peer := peer w;
     can_spawn := can_spawn w |}.

(** The socket is open and connected: [send] and [recv] are allowed. *)
Definition usable (s : sock) : bool :=
  connected s && Nat.eqb (close_calls s) 0.

(** The next bytes a [recv(n)] hands over: at most [n], never across the
    boundary of a segment; segments without payload deliver nothing. *)
Fixpoint take_seg (n : nat) (segs : list bytes) : option (bytes * list bytes) :=
  match segs with
  | [] => None
  | seg :: rest =>
      match seg with
      | [] => take_seg n rest
      | _ :: _ =>
          Some (take n seg,
                match drop n seg with
                | [] => rest
                | r => r :: rest
                end)
      end
  end.

(** [socket.socket(AF_INET, SOCK_STREAM)] *)
Definition socket_new : M world nat :=
  fun w =>
    (Ok (length (sockets w)),
     set_sockets (fun l => l ++ [{| connected := false; inbound := [];
                                    at_end := PeerSilent; outbound := [];
                                    recv_calls := 0; close_calls := 0 |}]) w).

(** [s.connect((host, port))] *)
Definition sock_connect (h : nat) (host : pystr) (port : Z) : M world unit :=
  fun w =>
    match sockets w !! h with
    | None => (Raise OSError, w)
    | Some s =>
        if negb (Nat.eqb (close_calls s) 0) then (Raise OSError, w)
        else
          match peer w host port with
          | None => (Raise ConnectionRefusedError, w)
          | Some (segs, e) =>
              (Ok tt,
               set_sockets
                 (fun l => <[h := {| connected := true; inbound := segs;
                                     at_end := e; outbound := outbound s;
                                     recv_calls := recv_calls s;
                                     close_calls := close_calls s |}]> l) w)
          end
    end.

(** [s.send(data)] *)
Definition sock_send (h : nat) (data : bytes) : M world Z :=
  fun w =>
    match sockets w !! h with
    | None => (Raise OSError, w)
    | Some s =>
        if usable s then
          (Ok (Z.of_nat (length data)),
           set_sockets
             (fun l => <[h := {| connected := connected s;
                                 inbound := inbound s; at_end := at_end s;
                                 outbound := outbound s ++ [data];
                                 recv_calls := recv_calls s;
                                 close_calls := close_calls s |}]> l) w)
        else (Raise OSError, w)
    end.

(** [s.recv(n)] *)
Definition sock_recv (h : nat) (n : Z) : M world bytes :=
  fun w =>
    match sockets w !! h with
    | None => (Raise OSError, w)
    | Some s =>
        if usable s then
          let upd segs :=
            set_sockets
              (fun l => <[h := {| connected := connected s; inbound := segs;
                                  at_end := at_end s; outbound := outbound s;
                                  recv_calls := S (recv_calls s);
                                  close_calls := close_calls s |}]> l) w in
          match take_seg (Z.to_nat n) (inbound s) with
          | Some (data, rest) => (Ok data, upd rest)
          | None =>
              (match at_end s with
               | PeerClosed => Ok []
               | PeerReset => Raise ConnectionResetError
               | PeerSilent => Blocked
               end, upd [])
          end
        else (Raise OSError, w)
    end.

(** [s.close()] *)
Definition sock_close (h : nat) : M world unit :=
  fun w =>
    match sockets w !! h with
    | None => (Raise OSError, w)
    | Some s =>
        (Ok tt,
         set_sockets
           (fun l => <[h := {| connected := connected s; inbound := inbound s;
                               at_end := at_end s; outbound := outbound s;
                               recv_calls := recv_calls s;
                               close_calls := S (close_calls s) |}]> l) w)
    end.

(** [subprocess.Popen(argv)] *)
Definition popen : M world nat :=
  fun w =>
    if can_spawn w
    then (Ok (length (procs w)),
          set_procs (fun l => l ++ [{| terminate_calls := 0;
                                       wait_calls := 0 |}]) w)
    else (Raise OSError, w).

(** [p.terminate()] *)
Definition proc_terminate (h : nat) : M world unit :=
  fun w =>
    match procs w !! h with
    | None => (Raise OSError, w)
    | Some p =>
        (Ok tt,
         set_procs
           (fun l => <[h := {| terminate_calls := S (terminate_calls p);
                               wait_calls := wait_calls p |}]> l) w)
    end.

(** [p.wait()] *)
Definition proc_wait (h : nat) : M world unit :=
  fun w =>
    match procs w !! h with
    | None => (Raise OSError, w)
    | Some p =>
        (Ok tt,
         set_procs
           (fun l => <[h := {| terminate_calls := terminate_calls p;
                               wait_calls := S (wait_calls p) |}]> l) w)
    end.

End Net.

(* ===================================================================== *)
(** * Dap: DAPClient and DAPDebugger *)
(* ===================================================================== *)

Module Dap.
Import Text Py Json Net.
Local Open Scope py_scope.

(** The library functions the client calls whose code is not part of the
    repository and whose exact behaviour no property below depends on:
    [json.loads] ([None] for JSONDecodeError), [int] on a [str] ([None]
    for ValueError) and [os.path.abspath] (which reads the platform and the
    current directory).  With them, what the interpreter and its standard
    output refuse: [dumps_error v] is the exception [json.dumps(v)] raises
    instead of returning the text of [v] (ValueError on an int of more
    digits than the interpreter turns into text, RecursionError on a value
    nested beyond its limit), [print_error text] the exception [print]
    raises instead of writing [text] (UnicodeEncodeError on a character
    the encoding of the output does not have); [None] when they raise
    nothing. *)
Class PyLib := {
  json_loads : pystr -> option value;
  py_int : pystr -> option Z;
  abspath : pystr -> pystr;
  dumps_error : value -> option exn;
  print_error : pystr -> option exn
}.

Definition crlf : list N := [13; 10]%N.

(** [class DAPClient], lines 10-14.  [socket] is a reference to a socket
    object of the world, or [None]. *)
Record DAPClient := {
  debug_port : Z;
  socket : option nat;
  seq : Z
}.

Definition DAPClient_init : DAPClient :=
  {| debug_port := 5678; socket := None; seq := 1 |}.

(** The state a method of the client runs in: the object and the world. *)
Definition cstate : Type := DAPClient * world.

Definition self_ : M cstate DAPClient := fun st => (Ok (fst st), st).

Definition set_seq (z : Z) : M cstate unit :=
  modify (fun st : cstate =>
            ({| debug_port := debug_port (fst st); socket := socket (fst st);
                seq := z |}, snd st)).

Definition set_socket (h : option nat) : M cstate unit :=
  modify (fun st : cstate =>
            ({| debug_port := debug_port (fst st); socket := h;
                seq := seq (fst st) |}, snd st)).

(** A system call, which leaves the object alone. *)
Definition sys {A} (m : M world A) : M cstate A :=
  zoom snd (fun w st => (fst st, w)) m.

(** [self.socket.<method>]: the attribute lookup fails on [None]. *)
Definition self_socket : M cstate nat :=
  let* self := self_ in
  match socket self with
  | Some h => ret h
  | None => raise AttributeError
  end.

Definition encode (s : pystr) : M cstate bytes :=
  match utf8_encode s with
  | Some b => ret b
  | None => raise UnicodeEncodeError
  end.

Definition decode (b : bytes) : M cstate pystr :=
  match utf8_decode b with
  | Some s => ret s
  | None => raise UnicodeDecodeError
  end.

(** [l[i]] on the list a [split] returns. *)
Definition item (l : list pystr) (i : nat) : M cstate pystr :=
  match l !! i with
  | Some x => ret x
  | None => raise IndexError
  end.

(** The request dict of lines 22-27. *)
Definition request_of (seq : Z) (command : pystr) (arguments : value) : value :=
  VDict [(lit "seq", VInt seq);
         (lit "type", VStr (lit "request"));
         (lit "command", VStr command);
         (lit "arguments", py_or arguments (VDict []))].

(** The text of lines 30-33 for a serialized message. *)
Definition full_message_of (content_length : Z) (message : pystr) : pystr :=
  lit "Content-Length: " ++ str_of_int content_length ++ crlf ++ crlf
  ++ message.

(** One message on the wire: the header and the body it announces. *)
Definition frame (body : bytes) : bytes :=
  full_message_of (Z.of_nat (length body)) body.

Section WithLib.
Context {lib : PyLib}.

(** [read_response], lines 55-57: the header loop. *)
Fixpoint read_headers (fuel : nat) (headers : bytes) : M cstate bytes :=
  if contains (crlf ++ crlf) headers then ret headers
  else
    match fuel with
    | O => out_of_fuel
    | S f =>
        let* h := self_socket in
        let* chunk := sys (sock_recv h 1) in
        read_headers f (headers ++ chunk)
    end.

(** [read_response], lines 64-66: the body loop. *)
Fixpoint read_body (fuel : nat) (content_length : Z) (body : bytes)
  : M cstate bytes :=
  if (Z.of_nat (length body) <? content_length)%Z then
    match fuel with
    | O => out_of_fuel
    | S f =>
        let* h := self_socket in
        let* chunk :=
          sys (sock_recv h (content_length - Z.of_nat (length body))) in
        read_body f content_length (body ++ chunk)
    end
  else ret body.

(** [DAPClient.read_response], lines 53-68.  [fuel] bounds the number of
    iterations of each of its two loops. *)
Definition read_response (fuel : nat) : M cstate value :=
  let* headers := read_headers fuel [] in
  let* header_str := decode headers in
  let* after := item (split (lit "Content-Length: ") header_str) 1 in
  let* field := item (split crlf after) 0 in
  let* content_length :=
    match py_int field with
    | Some n => ret n
    | None => raise ValueError
    end in
  let* body := read_body fuel content_length [] in
  let* text := decode body in
  match json_loads text with
  | Some v => ret v
  | None => raise JSONDecodeError
  end.

(** The test of lines 46-49, and of lines 111-114 and 193-196:
    [response.get(k1) == s1 and response.get(k2) == s2]. *)
Definition get_eq_and (response : value) (k1 s1 k2 s2 : pystr)
  : M cstate bool :=
  let* a := lift (py_get response k1 VNone) in
  if eq_str a s1 then
    let* b := lift (py_get response k2 VNone) in
    ret (eq_str b s2)
  else ret false.

(** [send_request], lines 41-50: the loop that waits for the response.
    The [print] of lines 43-45 evaluates its three [get]s and writes. *)
Fixpoint await_response (inner fuel : nat) (command : pystr)
  : M cstate value :=
  match fuel with
  | O => out_of_fuel
  | S f =>
      let* response := read_response inner in
      let* _ := lift (py_get response (lit "type") VNone) in
      let* ev := lift (py_get response (lit "event") VNone) in
      let* _ := lift (py_get response (lit "command") ev) in
      let* found :=
        get_eq_and response (lit "type") (lit "response")
          (lit "command") command in
      if found then ret response else await_response inner f command
  end.

(** [json.dumps(v)], line 30: the text of [v], unless the interpreter
    refuses the value. *)
Definition json_dumps (v : value) : M cstate pystr :=
  match dumps_error v with
  | Some e => raise e
  | None => ret (dumps v)
  end.

(** [print(text)], line 34: nothing for the client, unless the standard
    output refuses the text. *)
Definition py_print (text : pystr) : M cstate unit :=
  match print_error text with
  | Some e => raise e
  | None => ret tt
  end.

(** What stops [send_request] between the counter and the socket: the
    exception of [json.dumps], line 30, or after it that of [print], line
    34; [None] when the call gets to its [send]. *)
Definition write_error (command : pystr) (request : value) : option exn :=
  match dumps_error request with
  | Some e => Some e
  | None => print_error (lit "Sending: " ++ command)
  end.

(** [DAPClient.send_request], lines 16-50.  [arguments] is [VNone] when the
    caller gives none; the result is [VNone] for [return None].  The
    counter has advanced, line 28, before anything that can raise. *)
Definition send_request (fuel : nat) (command : pystr) (arguments : value)
    (wait_for_response : bool) : M cstate value :=
  let* self := self_ in
  let request := request_of (seq self) command arguments in
  do set_seq (seq self + 1) in
  let* message := json_dumps request in
  let* encoded := encode message in
  let content_length := Z.of_nat (length encoded) in
  let full_message := full_message_of content_length message in
  do py_print (lit "Sending: " ++ command) in
  let* h := self_socket in
  let* data := encode full_message in
  let* _ := sys (sock_send h data) in
  if negb wait_for_response then ret VNone
  else await_response fuel fuel command.

(** [DAPClient.connect], lines 70-73. *)
Definition connect (host : pystr) (port : Z) : M cstate unit :=
  let* h := sys socket_new in
  do set_socket (Some h) in
  sys (sock_connect h host port).

(** The loop of lines 108-116, and of lines 191-198 with ["stopped"]:
    read until the named event; [response] is still bound after the
    [break], and is the result here. *)
Fixpoint await_event (inner fuel : nat) (name : pystr) : M cstate value :=
  match fuel with
  | O => out_of_fuel
  | S f =>
      let* response := read_response inner in
      let* found :=
        get_eq_and response (lit "type") (lit "event") (lit "event") name in
      if found then ret response else await_event inner f name
  end.

(** [DAPClient.initialize_session], lines 75-116. *)
Definition initialize_session (fuel : nat) : M cstate value :=
  let* _ :=
    send_request fuel (lit "initialize")
      (VDict [(lit "clientID", VStr (lit "dap-demo"));
              (lit "clientName", VStr (lit "DAP Demo Client"));
              (lit "adapterID", VStr (lit "python"));
              (lit "pathFormat", VStr (lit "path"));
              (lit "linesStartAt1", VBool true);
              (lit "columnsStartAt1", VBool true);
              (lit "supportsVariableType", VBool true);
              (lit "supportsVariablePaging", VBool true);
              (lit "supportsRunInTerminalRequest", VBool true)])
      true in
  let* self := self_ in
  let* _ :=
    send_request fuel (lit "attach")
      (VDict [(lit "connect",
               VDict [(lit "host", VStr (lit "localhost"));
                      (lit "port", VInt (debug_port self))]);
              (lit "pathMappings", VList []);
              (lit "justMyCode", VBool false)])
      false in
  let* _ := await_event fuel fuel (lit "initialized") in
  ret VNone.

(** [DAPClient.set_breakpoints], lines 118-127. *)
Definition set_breakpoints (fuel : nat) (file_path : pystr) (lines : list Z)
  : M cstate value :=
  let abs_path := abspath file_path in
  let breakpoints :=
    List.map (fun line => VDict [(lit "line", VInt line)]) lines in
  send_request fuel (lit "setBreakpoints")
    (VDict [(lit "source", VDict [(lit "path", VStr abs_path)]);
            (lit "breakpoints", VList breakpoints)])
    true.

(** [DAPClient.configuration_done], lines 129-131. *)
Definition configuration_done (fuel : nat) : M cstate value :=
  send_request fuel (lit "configurationDone") VNone true.

(** [DAPClient.get_stack_trace], lines 133-135. *)
Definition get_stack_trace (fuel : nat) (thread_id : value) : M cstate value :=
  send_request fuel (lit "stackTrace")
    (VDict [(lit "threadId", thread_id)]) true.

(** [DAPClient.get_scopes], lines 137-139. *)
Definition get_scopes (fuel : nat) (frame_id : value) : M cstate value :=
  send_request fuel (lit "scopes") (VDict [(lit "frameId", frame_id)]) true.

(** [DAPClient.get_variables], lines 141-145. *)
Definition get_variables (fuel : nat) (variables_reference : value)
  : M cstate value :=
  send_request fuel (lit "variables")
    (VDict [(lit "variablesReference", variables_reference)]) true.

(** [class DAPDebugger], lines 148-151. *)
Record DAPDebugger := {
  dbg_debug_port : Z;
  client : DAPClient
}.

Definition DAPDebugger_init : DAPDebugger :=
  {| dbg_debug_port := 5678; client := DAPClient_init |}.

Definition dstate : Type := DAPDebugger * world.

(** A method call on [self.client]. *)
Definition on_client {A} (m : M cstate A) : M dstate A :=
  zoom (fun st : dstate => (client (fst st), snd st))
       (fun (cs : cstate) (st : dstate) =>
          ({| dbg_debug_port := dbg_debug_port (fst st); client := fst cs |},
           snd cs))
       m.

Definition dsys {A} (m : M world A) : M dstate A :=
  zoom snd (fun w st => (fst st, w)) m.

(** A [for] loop over the items of a list. *)
Fixpoint for_each {S A} (items : list A) (body : A -> M S unit) : M S unit :=
  match items with
  | [] => ret tt
  | x :: rest => do body x in for_each rest body
  end.

(** The [try] block of [start_debug_session], lines 174-257.  The chain of
    [if]/[elif] of lines 228-257 only prints; what it evaluates,
    [var["name"]] and [var["value"]], has been evaluated by the [print] of
    line 212 on the same dict. *)
Definition session_body (fuel : nat) : M dstate unit :=
  let* self := (fun st : dstate => (Ok (fst st), st)) in
  do on_client (connect (lit "localhost") (dbg_debug_port self)) in
  let* _ := on_client (initialize_session fuel) in
  let* _ := on_client (set_breakpoints fuel (lit "demo/main.py") [99%Z]) in
  let* _ := on_client (configuration_done fuel) in
  let* response := on_client (await_event fuel fuel (lit "stopped")) in
  let* body := lift (getitem_key response (lit "body")) in
  let* thread_id := lift (getitem_key body (lit "threadId")) in
  let* stack_response := on_client (get_stack_trace fuel thread_id) in
  let* sbody := lift (getitem_key stack_response (lit "body")) in
  let* frames := lift (getitem_key sbody (lit "stackFrames")) in
  let* frame := lift (getitem_idx frames 0) in
  let* frame_id := lift (getitem_key frame (lit "id")) in
  let* scopes_response := on_client (get_scopes fuel frame_id) in
  let* scbody := lift (getitem_key scopes_response (lit "body")) in
  let* scopes := lift (getitem_key scbody (lit "scopes")) in
  let* scope_items := lift (py_iter scopes) in
  for_each scope_items (fun scope =>
    let* _ := lift (getitem_key scope (lit "name")) in
    let* ref := lift (getitem_key scope (lit "variablesReference")) in
    let* vars_response := on_client (get_variables fuel ref) in
    let* vbody := lift (getitem_key vars_response (lit "body")) in
    let* vars := lift (getitem_key vbody (lit "variables")) in
    let* var_items := lift (py_iter vars) in
    for_each var_items (fun var =>
      let* _ := lift (getitem_key var (lit "name")) in
      let* _ := lift (getitem_key var (lit "value")) in
      ret tt)).

(** The [finally] block, lines 261-265.  A socket object is always true. *)
Definition teardown (target_process : nat) : M dstate unit :=
  let* self := (fun st : dstate => (Ok (fst st), st)) in
  do match socket (client self) with
     | Some h => dsys (sock_close h)
     | None => ret tt
     end in
  do dsys (proc_terminate target_process) in
  dsys (proc_wait target_process).

(** [DAPDebugger.start_debug_session], lines 153-265.  [time.sleep] only
    lets time pass. *)
Definition start_debug_session (fuel : nat) : M dstate unit :=
  let* target_process := dsys popen in
  try_except_finally (session_body fuel) (teardown target_process).

End WithLib.

End Dap.

(* ===================================================================== *)
(** * Ref: one instance of the library, to run the client on examples *)
(* ===================================================================== *)

Module Ref.
Import Text Py Json Net Dap.

Definition is_digit (c : N) : bool := (48 <=? c)%N && (c <=? 57)%N.

Fixpoint digits_value (acc : Z) (s : pystr) : option Z :=
  match s with
  | [] => Some acc
  | c :: s' =>
      if is_digit c
      then digits_value (acc * 10 + Z.of_N (c - 48))%Z s'
      else None
  end.

(** Decimal integers: an optional minus sign and at least one digit. *)
Definition int_of_str (s : pystr) : option Z :=
  match s with
  | [] => None
  | c :: s' =>
      if (c =? 45)%N then
        match s' with
        | [] => None
        | _ :: _ => Z.opp <$> digits_value 0 s'
        end
      else digits_value 0 s
  end.

Definition is_ws (c : N) : bool :=
  (c =? 32)%N || (c =? 9)%N || (c =? 10)%N || (c =? 13)%N.

Fixpoint skip_ws (s : pystr) : pystr :=
  match s with
  | c :: s' => if is_ws c then skip_ws s' else s
  | [] => []
  end.

(** The characters of a JSON string up to its closing quote; of the
    escapes, the one-letter ones. *)
Fixpoint read_string (s : pystr) (acc : pystr) : option (pystr * pystr) :=
  match s with
  | [] => None
  | c :: s' =>
      if (c =? 34)%N then Some (rev acc, s')
      else if (c =? 92)%N then
        match s' with
        | e :: s'' =>
            let plain x := read_string s'' (x :: acc) in
            if (e =? 34)%N then plain 34%N
            else if (e =? 92)%N then plain 92%N
            else if (e =? 47)%N then plain 47%N
            else if (e =? 110)%N then plain 10%N
            else if (e =? 114)%N then plain 13%N
            else if (e =? 116)%N then plain 9%N
            else if (e =? 98)%N then plain 8%N
            else if (e =? 102)%N then plain 12%N
            else None
        | [] => None
        end
      else if (c <? 32)%N then None
      else read_string s' (c :: acc)
  end.

Fixpoint span_digits (s : pystr) (acc : pystr) : pystr * pystr :=
  match s with
  | c :: s' => if is_digit c then span_digits s' (c :: acc) else (rev acc, s)
  | [] => (rev acc, [])
  end.

Definition read_int (s : pystr) : option (value * pystr) :=
  match s with
  | c :: s' =>
      let '(ds, rest) := span_digits (if (c =? 45)%N then s' else s) [] in
      match int_of_str (if (c =? 45)%N then c :: ds else ds) with
      | Some z => Some (VInt z, rest)
      | None => None
      end
  | [] => None
  end.

(** A reader for JSON documents made of objects, arrays, strings,
    integers, [true], [false] and [null]; [fuel] bounds the nesting and
    the number of items. *)
Fixpoint read_value (fuel : nat) (s : pystr) : option (value * pystr) :=
  match fuel with
  | O => None
  | S f =>
      let s := skip_ws s in
      if startswith (lit "null") s then Some (VNone, drop 4 s)
      else if startswith (lit "true") s then Some (VBool true, drop 4 s)
      else if startswith (lit "false") s then Some (VBool false, drop 5 s)
      else
        match s with
        | [] => None
        | c :: s' =>
            if (c =? 34)%N then
              match read_string s' [] with
              | Some (str, rest) => Some (VStr str, rest)
              | None => None
              end
            else if (c =? 91)%N then
              match skip_ws s' with
              | 93%N :: rest => Some (VList [], rest)
              | _ =>
                  match read_items f s' with
                  | Some (l, rest) => Some (VList l, rest)
                  | None => None
                  end
              end
            else if (c =? 123)%N then
              match skip_ws s' with
              | 125%N :: rest => Some (VDict [], rest)
              | _ =>
                  match read_members f s' with
                  | Some (d, rest) => Some (VDict d, rest)
                  | None => None
                  end
              end
            else read_int s
        end
  end
with read_items (fuel : nat) (s : pystr) : option (list value * pystr) :=
  match fuel with
  | O => None
  | S f =>
      match read_value f s with
      | Some (v, rest) =>
          match skip_ws rest with
          | 44%N :: rest' =>
              match read_items f rest' with
              | Some (l, rest'') => Some (v :: l, rest'')
              | None => None
              end
          | 93%N :: rest' => Some ([v], rest')
          | _ => None
          end
      | None => None
      end
  end
with read_members (fuel : nat) (s : pystr)
  : option (list (pystr * value) * pystr) :=
  match fuel with
  | O => None
  | S f =>
      match skip_ws s with
      | 34%N :: s' =>
          match read_string s' [] with
          | Some (k, rest) =>
              match skip_ws rest with
              | 58%N :: rest' =>
                  match read_value f rest' with
                  | Some (v, rest'') =>
                      match skip_ws rest'' with
                      | 44%N :: r =>
                          match read_members f r with
                          | Some (d, r') => Some ((k, v) :: d, r')
                          | None => None
                          end
                      | 125%N :: r => Some ([(k, v)], r)
                      | _ => None
                      end
                  | None => None
                  end
              | _ => None
              end
          | None => None
          end
      | _ => None
      end
  end.

Definition loads (s : pystr) : option value :=
  match read_value (S (length s)) s with
  | Some (v, rest) =>
      match skip_ws rest with
      | [] => Some v
      | _ :: _ => None
      end
  | None => None
  end.

(** [posixpath.normpath] and [posixpath.abspath] in the directory [cwd]. *)
Definition norm_step (initial_slashes : nat) (new_comps : list pystr)
    (comp : pystr) : list pystr :=
  if str_eqb comp [] || str_eqb comp (lit ".") then new_comps
  else if negb (str_eqb comp (lit ".."))
          || (Nat.eqb initial_slashes 0 && Nat.eqb (length new_comps) 0)
          || match last new_comps with
             | Some l => str_eqb l (lit "..")
             | None => false
             end
       then new_comps ++ [comp]
       else removelast new_comps.

Definition normpath (path : pystr) : pystr :=
  if str_eqb path [] then lit "."
  else
    let initial_slashes :=
      if startswith (lit "/") path then
        if startswith (lit "//") path && negb (startswith (lit "///") path)
        then 2 else 1
      else 0 in
    let comps := fold_left (norm_step initial_slashes)
                   (split (lit "/") path) [] in
    let joined := List.concat (List.repeat (lit "/") initial_slashes)
                  ++ join (lit "/") comps in
    if str_eqb joined [] then lit "." else joined.

Definition posix_abspath (cwd path : pystr) : pystr :=
  if startswith (lit "/") path then normpath path
  else normpath (cwd ++ lit "/" ++ path).

(** The interpreter as it is installed: an int of more than 4300 digits is
    not turned into text, and [json.dumps] raises ValueError on a value
    that holds one; the standard output is UTF-8, and [print] raises on a
    text that UTF-8 does not encode, a lone surrogate. *)
Definition max_str_digits : Z := 4300.

Fixpoint long_int (v : value) : bool :=
  match v with
  | VInt z => (10 ^ max_str_digits <=? Z.abs z)%Z
  | VList l => existsb long_int l
  | VDict d => existsb (fun kv => long_int (snd kv)) d
  | _ => false
  end.

Definition refuses_value (v : value) : option exn :=
  if long_int v then Some ValueError else None.

Definition refuses_text (text : pystr) : option exn :=
  match utf8_encode text with
  | Some _ => None
  | None => Some UnicodeEncodeError
  end.

Definition lib (cwd : pystr) : PyLib :=
  {| json_loads := loads; py_int := int_of_str;
     abspath := posix_abspath cwd;
     dumps_error := refuses_value; print_error := refuses_text |}.

End Ref.

(* ===================================================================== *)
(** * Flat: reading as a function of the byte stream *)
(* ===================================================================== *)

(** What [read_response] does, told again on the sequence of bytes the
    socket will deliver, without the segments in which they arrive and
    without loops over [recv].  The properties below relate the two. *)
Module Flat.
Import Text Py Json Net Dap.

(** The bytes a socket has still to deliver. *)
Definition stream (s : sock) : bytes := List.concat (inbound s).

(** A socket after some reading: its input and its count of [recv] calls
    are replaced. *)
Definition with_input (segs : list bytes) (n : nat) (s : sock) : sock :=
  {| connected := connected s; inbound := segs; at_end := at_end s;
     outbound := outbound s; recv_calls := n; close_calls := close_calls s |}.

(** The world with the socket [h] replaced. *)
Definition put_sock (h : nat) (s : sock) (w : world) : world :=
  set_sockets (fun l => <[h := s]> l) w.

(** [s'] is [s] but for its input and its count of [recv] calls. *)
Definition same_but_input (s s' : sock) : Prop :=
  connected s' = connected s /\ at_end s' = at_end s /\
  outbound s' = outbound s /\ close_calls s' = close_calls s.

(** [w'] is [w] after reading on the socket [h] until [rest] remains:
    nothing else has changed. *)
Definition reads_to (h : nat) (rest : bytes) (w w' : world) : Prop :=
  exists s s', sockets w !! h = Some s /\ w' = put_sock h s' w /\
               same_but_input s s' /\ stream s' = rest.

(** The socket [h] of the world is open and connected, in state [s]. *)
Definition ready (h : nat) (w : world) (s : sock) : Prop :=
  sockets w !! h = Some s /\ usable s = true.

(** What [recv] returns once the peer's bytes are used up. *)
Definition end_recv (e : ending) : outcome bytes :=
  match e with
  | PeerClosed => Ok []
  | PeerReset => Raise ConnectionResetError
  | PeerSilent => Blocked
  end.

(** The header of a frame that announces [n] bytes. *)
Definition header_of (n : nat) : list N :=
  lit "Content-Length: " ++ str_of_int (Z.of_nat n) ++ crlf ++ crlf.

(** How a read ends when the peer's bytes are used up: at a closed
    connection the loops of [read_response] go on for ever. *)
Definition end_outcome {A} (e : ending) : outcome A :=
  match e with
  | PeerClosed => OutOfFuel
  | PeerReset => Raise ConnectionResetError
  | PeerSilent => Blocked
  end.

(** The header block: the shortest prefix of the stream, after [headers],
    that contains the blank line. *)
Fixpoint flat_headers (headers stream : bytes) : option (bytes * bytes) :=
  if contains (crlf ++ crlf) headers then Some (headers, stream)
  else
    match stream with
    | [] => None
    | b :: r => flat_headers (headers ++ [b]) r
    end.

Section WithLib.
Context {lib : PyLib}.

(** Lines 60-61 on a header block. *)
Definition parse_length (headers : bytes) : outcome Z :=
  match utf8_decode headers with
  | None => Raise UnicodeDecodeError
  | Some header_str =>
      match split (lit "Content-Length: ") header_str !! 1 with
      | None => Raise IndexError
      | Some after =>
          match split crlf after !! 0 with
          | None => Raise IndexError
          | Some field =>
              match py_int field with
              | Some n => Ok n
              | None => Raise ValueError
              end
          end
      end
  end.

(** Line 68 on a body. *)
Definition parse_body (body : bytes) : outcome value :=
  match utf8_decode body with
  | None => Raise UnicodeDecodeError
  | Some text =>
      match json_loads text with
      | Some v => Ok v
      | None => Raise JSONDecodeError
      end
  end.

(** One message read off the stream: the outcome and the bytes left. *)
Definition read_flat (stream : bytes) (e : ending) : outcome value * bytes :=
  match flat_headers [] stream with
  | None => (end_outcome e, [])
  | Some (headers, rest) =>
      match parse_length headers with
      | Ok n =>
          if Nat.leb (Z.to_nat n) (length rest)
          then (parse_body (take (Z.to_nat n) rest), drop (Z.to_nat n) rest)
          else (end_outcome e, [])
      | Raise e' => (Raise e', rest)
      | Blocked => (Blocked, rest)
      | OutOfFuel => (OutOfFuel, rest)
      end
  end.

End WithLib.

End Flat.

(* ===================================================================== *)
(** * Effects: what a call may change *)
(* ===================================================================== *)

Module Effects.
Import Text Py Json Net Dap Flat.

(** Every run of [m] takes a state to an [R]-related state, whatever its
    outcome. *)
Definition preserves {S A} (R : relation S) (m : M S A) : Prop :=
  forall s, R s (snd (m s)).

(** [s'] is [s] later in its life: as connected and as closed as it was;
    bytes may have come and gone. *)
Definition same_life (s s' : sock) : Prop :=
  connected s' = connected s /\ at_end s' = at_end s /\
  close_calls s' = close_calls s.

(** The world but for what the sockets have read: same processes, same
    sockets, each with the same output and the same life. *)
Definition quiet (w w' : world) : Prop :=
  procs w' = procs w /\ peer w' = peer w /\ can_spawn w' = can_spawn w /\
  Forall2 same_but_input (sockets w) (sockets w').

(** The world but for the traffic on the sockets. *)
Definition calm (w w' : world) : Prop :=
  procs w' = procs w /\ peer w' = peer w /\ can_spawn w' = can_spawn w /\
  Forall2 same_life (sockets w) (sockets w').

(** A step that only reads: the client object is untouched. *)
Definition reads_only (st st' : cstate) : Prop :=
  fst st' = fst st /\ quiet (snd st) (snd st').

(** A step of the client: it keeps its port and its socket. *)
Definition client_step (st st' : cstate) : Prop :=
  debug_port (fst st') = debug_port (fst st) /\
  socket (fst st') = socket (fst st) /\
  calm (snd st) (snd st').

(** A step of the debugger after it has connected. *)
Definition debugger_step (st st' : dstate) : Prop :=
  dbg_debug_port (fst st') = dbg_debug_port (fst st) /\
  socket (client (fst st')) = socket (client (fst st)) /\
  calm (snd st) (snd st').

(** The client with its counter advanced, as [send_request] leaves it. *)
Definition bump (c : DAPClient) : DAPClient :=
  {| debug_port := debug_port c; socket := socket c; seq := seq c + 1 |}.

(** A socket after a [send]. *)
Definition with_output (data : bytes) (s : sock) : sock :=
  {| connected := connected s; inbound := inbound s; at_end := at_end s;
     outbound := outbound s ++ [data]; recv_calls := recv_calls s;
     close_calls := close_calls s |}.

(** The bytes of a request on the wire. *)
Definition sent_frame (seq : Z) (command : pystr) (arguments : value) : bytes :=
  frame (dumps (request_of seq command arguments)).

(** The bytes of several messages, one frame after the other. *)
Definition frames (bodies : list bytes) : bytes :=
  List.concat (List.map frame bodies).

(** One call of [send_request]: the fuel of the model, the command, the
    arguments and the flag. *)
Record call := {
  call_fuel : nat;
  call_command : pystr;
  call_arguments : value;
  call_wait : bool
}.

(** [m.get(k)] on a message, [None] when [m] is no dict. *)
Definition field (m : value) (k : pystr) : value :=
  match m with
  | VDict d =>
      match lookup_key k d with
      | Some x => x
      | None => VNone
      end
  | _ => VNone
  end.

Definition is_dict (m : value) : bool :=
  match m with
  | VDict _ => true
  | _ => false
  end.

(** The message is the response to [command]. *)
Definition is_response_to (command : pystr) (m : value) : bool :=
  eq_str (field m (lit "type")) (lit "response")
  && eq_str (field m (lit "command")) command.

(** The message is the event [name]. *)
Definition is_event (name : pystr) (m : value) : bool :=
  eq_str (field m (lit "type")) (lit "event")
  && eq_str (field m (lit "event")) name.

(** The arguments of the request of [set_breakpoints], line 126. *)
Definition breakpoints_arguments (abs_path : pystr) (lines : list Z) : value :=
  VDict [(lit "source", VDict [(lit "path", VStr abs_path)]);
         (lit "breakpoints",
          VList (List.map (fun line => VDict [(lit "line", VInt line)])
                   lines))].

Section WithLib.
Context {lib : PyLib}.




(** The calls of one session, one after the other, whatever their
    outcomes. *)
Fixpoint run_requests (calls : list call) (st : cstate) : cstate :=
  match calls with
  | [] => st
  | k :: rest =>
      run_requests rest
        (snd (send_request (call_fuel k) (call_command k) (call_arguments k)
                (call_wait k) st))
  end.

(** The exception that stops a call of [send_request] on the client [c]
    before its [send], if any. *)
Definition stopped_by (command : pystr) (arguments : value) (c : DAPClient)
  : option exn :=
  write_error command (request_of (seq c) command arguments).

(** The calls of [calls] that get to their [send], each with its number,
    the first call of the list having the number [n]. *)
Fixpoint sending (n : Z) (calls : list call) : list (Z * call) :=
  match calls with
  | [] => []
  | k :: rest =>
      match write_error (call_command k)
              (request_of n (call_command k) (call_arguments k)) with
      | None => [(n, k)]
      | Some _ => []
      end ++ sending (n + 1) rest
  end.

(** The frame of a numbered call. *)
Definition call_frame (nk : Z * call) : bytes :=
  sent_frame (fst nk) (call_command (snd nk)) (call_arguments (snd nk)).

End WithLib.

End Effects.

(* ===================================================================== *)
(** * Sample: concrete peers and messages *)
(* ===================================================================== *)

Module Sample.
Import Text Py Json Net Dap Flat Effects.

(** The library instance of the examples, run in the directory [/work]. *)
Definition lib : PyLib := Ref.lib (lit "/work").

(** A response and an event as a debug adapter sends them. *)
Definition response (command : string) (body : value) : value :=
  VDict [(lit "seq", VInt 1); (lit "type", VStr (lit "response"));
         (lit "request_seq", VInt 1); (lit "command", VStr (lit command));
         (lit "success", VBool true); (lit "body", body)].

Definition event (name : string) (body : value) : value :=
  VDict [(lit "seq", VInt 1); (lit "type", VStr (lit "event"));
         (lit "event", VStr (lit name)); (lit "body", body)].

(** The bytes of a message as the peer frames it. *)
Definition wire (m : value) : bytes := frame (dumps m).

(** A connected socket that will receive [segs]. *)
Definition open_sock (segs : list bytes) (e : ending) : sock :=
  {| connected := true; inbound := segs; at_end := e; outbound := [];
     recv_calls := 0; close_calls := 0 |}.

(** A world with that socket alone, and the client that holds it. *)
Definition one_sock (segs : list bytes) (e : ending) : world :=
  {| sockets := [open_sock segs e]; procs := [];
     peer := fun _ _ => None; can_spawn := true |}.

Definition client0 : DAPClient :=
  {| debug_port := 5678; socket := Some 0; seq := 1 |}.

(** A world in which a debug adapter listens on port 5678 and will send
    [segs]. *)
Definition listening (segs : list bytes) (e : ending) : world :=
  {| sockets := []; procs := [];
     peer := fun _ port => if (port =? 5678)%Z then Some (segs, e) else None;
     can_spawn := true |}.

(** What the adapter of the scenarios sends over a whole session, some
    events in between. *)
Definition session_script : list value :=
  [event "output" (VDict []);
   response "initialize" (VDict []);
   event "initialized" (VDict []);
   response "setBreakpoints" (VDict []);
   event "thread" (VDict []);
   response "configurationDone" (VDict []);
   event "stopped" (VDict [(lit "threadId", VInt 7)]);
   response "stackTrace"
     (VDict [(lit "stackFrames", VList [VDict [(lit "id", VInt 100)]])]);
   response "scopes"
     (VDict [(lit "scopes",
              VList [VDict [(lit "name", VStr (lit "Locals"));
                            (lit "variablesReference", VInt 55)]])]);
   response "variables"
     (VDict [(lit "variables",
              VList [VDict [(lit "name", VStr (lit "x"));
                            (lit "value", VStr (lit "42"))]])])].

Definition session_bytes : bytes := List.concat (List.map wire session_script).

(** A request whose argument holds U+1F600, four bytes in UTF-8. *)
Definition emoji_arguments : value :=
  VDict [(lit "expression", VStr [128512%N])].

(** The requests of the handshake, and a session whose first request
    holds an integer of 4301 digits, one more than the interpreter
    converts to text. *)
Definition handshake_calls : list call :=
  [{| call_fuel := 3; call_command := lit "initialize";
      call_arguments := VNone; call_wait := true |};
   {| call_fuel := 0; call_command := lit "attach";
      call_arguments := VDict []; call_wait := false |};
   {| call_fuel := 3; call_command := lit "configurationDone";
      call_arguments := VNone; call_wait := true |}].

Definition long_arguments : value :=
  VDict [(lit "expression", VInt (10 ^ 4300))].

Definition refused_then_attach : list call :=
  [{| call_fuel := 0; call_command := lit "evaluate";
      call_arguments := long_arguments; call_wait := false |};
   {| call_fuel := 0; call_command := lit "attach";
      call_arguments := VDict []; call_wait := false |}].



(** A byte sequence cut into segments of [n] bytes. *)
Fixpoint cut (fuel n : nat) (l : bytes) : list bytes :=
  match fuel with
  | O => [l]
  | S f =>
      match l with
      | [] => []
      | _ :: _ => take n l :: cut f n (drop n l)
      end
  end.

End Sample.

(* ===================================================================== *)
(** * Properties of the text operations *)
(* ===================================================================== *)

Module TextFacts.
Import Text.

Lemma is_ascii_app (a b : list N) :
  is_ascii (a ++ b) = is_ascii a && is_ascii b.
Proof. apply forallb_app. Qed.

Lemma utf8_encode_ascii (s : pystr) :
  is_ascii s = true -> utf8_encode s = Some s.
Proof.
  induction s as [|c s IH]; simpl; [done|].
  intros [Hc Hs]%andb_true_iff.
  unfold utf8_encode_cp. rewrite Hc, (IH Hs). done.
Qed.

Lemma utf8_decode_ascii (b : bytes) :
  is_ascii b = true -> utf8_decode b = Some b.
Proof.
  induction b as [|c b IH]; simpl; [done|].
  intros [Hc Hs]%andb_true_iff.
  rewrite Hc, (IH Hs). done.
Qed.

(** A character takes one byte or more in UTF-8, and two or more outside
    ASCII: a text that holds such a character has more bytes than
    characters. *)
Lemma utf8_encode_cp_length (c : N) (b : bytes) :
  utf8_encode_cp c = Some b ->
  1 <= length b /\ ((c <? 128)%N = false -> 2 <= length b).
Proof.
  unfold utf8_encode_cp.
  destruct (c <? 128)%N; [intros [= <-]; split; [cbn; lia|done]|].
  destruct (c <? 2048)%N; [intros [= <-]; cbn; lia|].
  destruct (c <? 65536)%N.
  - destruct (_ && _); [done|]. intros [= <-]. cbn; lia.
  - destruct (c <? 1114112)%N; [|done]. intros [= <-]. cbn; lia.
Qed.

Lemma utf8_encode_length (s : pystr) (b : bytes) :
  utf8_encode s = Some b ->
  length s <= length b /\ (is_ascii s = false -> length s < length b).
Proof.
  revert b. induction s as [|c s IH]; intros b;
    cbn [utf8_encode is_ascii forallb].
  - by intros [= <-].
  - destruct (utf8_encode_cp c) as [bc|] eqn:Hc; [|done].
    destruct (utf8_encode s) as [bs|]; [|done]. intros [= <-].
    destruct (utf8_encode_cp_length _ _ Hc) as [H1 H2].
    destruct (IH bs eq_refl) as [Hle Hlt].
    rewrite length_app. cbn [length]. split; [lia|].
    destruct (c <? 128)%N eqn:E; cbn [andb].
    + intros Hs. specialize (Hlt Hs). lia.
    + intros _. specialize (H2 eq_refl). lia.
Qed.

Lemma utf8_encode_longer (s : pystr) (b : bytes) :
  utf8_encode s = Some b -> is_ascii s = false -> length s < length b.
Proof. intros H. by apply utf8_encode_length. Qed.

Lemma digit_ascii (n : N) : (48 + n mod 10 <? 128)%N = true.
Proof.
  apply N.ltb_lt. pose proof (N.mod_lt n 10). lia.
Qed.

Lemma digits_go_ascii fuel n acc :
  is_ascii acc = true -> is_ascii (digits_go fuel n acc) = true.
Proof.
  revert n acc. induction fuel as [|f IH]; intros n acc Hacc; simpl; [done|].
  assert (H : is_ascii ((48 + n mod 10)%N :: acc) = true).
  { simpl. rewrite digit_ascii. done. }
  destruct (n / 10 =? 0)%N; [done|]. by apply IH.
Qed.

Lemma str_of_int_ascii z : is_ascii (str_of_int z) = true.
Proof.
  unfold str_of_int, str_of_N.
  destruct (z <? 0)%Z.
  - change (is_ascii (45%N :: ?l)) with (is_ascii l).
    by apply digits_go_ascii.
  - by apply digits_go_ascii.
Qed.

(** The characters of [str(n)] for [n >= 0] are decimal digits. *)
Lemma digits_go_digit fuel n acc :
  Forall digit acc -> Forall digit (digits_go fuel n acc).
Proof.
  revert n acc. induction fuel as [|f IH]; intros n acc Hacc; simpl; [done|].
  assert (H : Forall digit ((48 + n mod 10)%N :: acc)).
  { constructor; [|done]. unfold digit.
    assert (n mod 10 < 10)%N by (apply N.mod_lt; lia).
    generalize dependent (n mod 10)%N. intros; lia. }
  destruct (n / 10 =? 0)%N; [done|]. by apply IH.
Qed.

Lemma str_of_nat_digit (n : nat) : Forall digit (str_of_int (Z.of_nat n)).
Proof.
  unfold str_of_int, str_of_N.
  destruct (Z.ltb_spec (Z.of_nat n) 0) as [H|H]; [lia|].
  by apply digits_go_digit.
Qed.

(** ** [in] *)

Lemma startswith_app (p s : list N) : startswith p (p ++ s) = true.
Proof. induction p as [|a p IH]; simpl; [done|]. by rewrite N.eqb_refl. Qed.

Lemma contains_unfold (sub s : list N) :
  contains sub s =
  startswith sub s || match s with [] => false | _ :: s' => contains sub s' end.
Proof. by destruct s. Qed.

Lemma contains_app_r (sub a b : list N) : contains sub (a ++ sub ++ b) = true.
Proof.
  induction a as [|x a IH].
  - cbn [app]. by rewrite contains_unfold, startswith_app.
  - cbn [app contains]. rewrite IH. by rewrite orb_true_r.
Qed.

Lemma startswith_head_ne (a c : N) (p s : list N) :
  a <> c -> startswith (a :: p) (c :: s) = false.
Proof. intros H. simpl. by apply N.eqb_neq in H as ->. Qed.

(** A text in which the first character of [sub] does not occur, followed
    by [t]: an occurrence of [sub] can only start inside [t]. *)
Lemma contains_skip (a : N) (p s t : list N) :
  Forall (fun c => c <> a) s ->
  contains (a :: p) (s ++ t) = contains (a :: p) t.
Proof.
  induction 1 as [|c s Hc _ IH]; [done|].
  cbn [app contains]. rewrite startswith_head_ne by done. by rewrite IH.
Qed.

Lemma contains_absent (a : N) (p s : list N) :
  Forall (fun c => c <> a) s -> contains (a :: p) s = false.
Proof.
  intros H. rewrite <- (app_nil_r s), (contains_skip _ _ _ _ H). done.
Qed.

(** ** [split] *)

Lemma split_go_none (sep cur s : pystr) :
  contains sep s = false -> split_go sep 0 cur s = [rev cur ++ s].
Proof.
  revert cur. induction s as [|c s IH]; intros cur H.
  - simpl. by rewrite app_nil_r.
  - cbn [contains] in H. apply orb_false_iff in H as [H1 H2].
    cbn [split_go]. rewrite H1, (IH _ H2). cbn [rev].
    by rewrite <- app_assoc.
Qed.


Lemma split_go_skip (sep cur p s : pystr) :
  split_go sep (length p) cur (p ++ s) =
  match s with
  | [] => [rev cur]
  | _ :: _ => split_go sep 0 cur s
  end.
Proof.
  induction p as [|x p IH]; cbn [length app].
  - destruct s; done.
  - cbn [split_go]. rewrite IH. destruct s, p; done.
Qed.

(** The text before the first occurrence of the separator, when the first
    character of the separator does not occur in it. *)
Lemma split_go_first (a : N) (sep' cur p s : pystr) :
  Forall (fun c => c <> a) p ->
  split_go (a :: sep') 0 cur (p ++ (a :: sep') ++ s) =
  (rev cur ++ p) :: split_go (a :: sep') 0 [] s.
Proof.
  intros Hp. revert cur. induction Hp as [|c p Hc _ IH]; intros cur.
  - cbn [app]. change (split_go (a :: sep') 0 cur (a :: sep' ++ s))
      with (if startswith (a :: sep') ((a :: sep') ++ s)
            then rev cur :: split_go (a :: sep') (Nat.pred (length (a :: sep'))) [] (sep' ++ s)
            else split_go (a :: sep') 0 (a :: cur) (sep' ++ s)).
    rewrite startswith_app, app_nil_r. cbn [length Nat.pred].
    rewrite split_go_skip. destruct s; [|done].
    by destruct sep'.
  - cbn [app split_go]. rewrite startswith_head_ne by done.
    rewrite IH. cbn [rev]. by rewrite <- app_assoc.
Qed.

End TextFacts.

(* ===================================================================== *)
(** * Properties of json.dumps *)
(* ===================================================================== *)

Module JsonFacts.
Import Text Json TextFacts.

Lemma hexdigit_ascii (d : N) : (d < 16)%N -> (hexdigit d <? 128)%N = true.
Proof.
  intros H. unfold hexdigit. destruct (d <? 10)%N; apply N.ltb_lt; lia.
Qed.

Lemma mod16_lt (n : N) : (n mod 16 < 16)%N.
Proof. apply N.mod_lt. lia. Qed.

Lemma u_escape_ascii (n : N) : is_ascii (u_escape n) = true.
Proof.
  unfold u_escape. rewrite is_ascii_app. cbn.
  rewrite !hexdigit_ascii by apply mod16_lt. done.
Qed.

Lemma escape_char_ascii (c : N) : is_ascii (escape_char c) = true.
Proof.
  unfold escape_char.
  repeat match goal with
         | |- context [if ?b then _ else _] => destruct b eqn:?
         end; try done.
  - cbn. apply andb_true_iff in Heqb6 as [_ H%N.leb_le].
    rewrite andb_true_r. apply N.ltb_lt. lia.
  - apply u_escape_ascii.
  - rewrite is_ascii_app, !u_escape_ascii. done.
Qed.

Lemma is_ascii_concat (l : list (list N)) :
  Forall (fun s => is_ascii s = true) l -> is_ascii (List.concat l) = true.
Proof.
  induction 1 as [|s l Hs _ IH]; [done|].
  cbn [List.concat]. by rewrite is_ascii_app, Hs, IH.
Qed.

Lemma encode_str_ascii (s : pystr) : is_ascii (encode_str s) = true.
Proof.
  unfold encode_str. cbn [is_ascii forallb].
  change (forallb _ ?l) with (is_ascii l).
  rewrite is_ascii_app, is_ascii_concat; [done|].
  apply List.Forall_forall. intros x [c [<- _]]%in_map_iff.
  apply escape_char_ascii.
Qed.

Lemma join_ascii (sep : pystr) (items : list pystr) :
  is_ascii sep = true ->
  Forall (fun s => is_ascii s = true) items ->
  is_ascii (join sep items) = true.
Proof.
  intros Hsep. induction 1 as [|x l Hx Hl IH]; [done|].
  cbn [join]. destruct l as [|y l]; [done|].
  by rewrite !is_ascii_app, Hx, Hsep, IH.
Qed.

(** [json.dumps] escapes every character that is not printable ASCII: its
    result is an ASCII string, whatever the value. *)
Lemma dumps_ascii (v : value) : is_ascii (dumps v) = true.
Proof.
  induction v as [ |b|z|s|l IH|d IH] using value_induction.
  - done.
  - by destruct b.
  - apply str_of_int_ascii.
  - apply encode_str_ascii.
  - cbn [dumps]. rewrite !is_ascii_app, join_ascii; [done|done|].
    induction IH; constructor; done.
  - cbn [dumps]. rewrite !is_ascii_app, join_ascii; [done|done|].
    induction IH as [|[k x] d Hx _ IHd]; constructor; [|done].
    cbn [snd] in Hx. by rewrite !is_ascii_app, encode_str_ascii, Hx.
Qed.

End JsonFacts.

(* ===================================================================== *)
(** * Properties of the socket model *)
(* ===================================================================== *)

Module NetFacts.
Import Text Py Net Dap Flat.

Lemma take_seg_spec (n : nat) (segs : list bytes) :
  0 < n ->
  match take_seg n segs with
  | Some (data, rest) =>
      data <> [] /\ length data <= n /\ data ++ List.concat rest = List.concat segs
  | None => List.concat segs = []
  end.
Proof.
  intros Hn. induction segs as [|seg segs IH]; [done|].
  cbn [take_seg]. destruct seg as [|b seg]; [exact IH|].
  split_and!.
  - destruct n; [lia|done].
  - rewrite length_take. lia.
  - cbn [List.concat].
    rewrite <- (take_drop n (b :: seg)) at 3.
    destruct (drop n (b :: seg)); cbn [List.concat];
      by rewrite ?app_nil_r, <- ?app_assoc.
Qed.

Lemma put_sock_id (h : nat) (s : sock) (w : world) :
  sockets w !! h = Some s -> put_sock h s w = w.
Proof.
  intros H. destruct w as [ss ps pe cs]. unfold put_sock, set_sockets.
  cbn in *. by rewrite list_insert_id.
Qed.

Lemma put_sock_put_sock (h : nat) (s s' : sock) (w : world) :
  put_sock h s' (put_sock h s w) = put_sock h s' w.
Proof.
  unfold put_sock, set_sockets. cbn. by rewrite list_insert_insert_eq.
Qed.

Lemma lookup_put_sock (h : nat) (s s' : sock) (w : world) :
  sockets w !! h = Some s -> sockets (put_sock h s' w) !! h = Some s'.
Proof.
  intros H. cbn. apply list_lookup_insert_eq. by eapply lookup_lt_Some.
Qed.

Lemma lookup_put_sock_ne (h i : nat) (s' : sock) (w : world) :
  h <> i -> sockets (put_sock h s' w) !! i = sockets w !! i.
Proof. intros H. cbn. by apply list_lookup_insert_ne. Qed.

Lemma same_but_input_refl (s : sock) : same_but_input s s.
Proof. by repeat split. Qed.

Lemma same_but_input_trans (s1 s2 s3 : sock) :
  same_but_input s1 s2 -> same_but_input s2 s3 -> same_but_input s1 s3.
Proof.
  unfold same_but_input. intros (?&?&?&?) (?&?&?&?).
  split_and!; congruence.
Qed.

Lemma same_but_input_with_input (segs : list bytes) (n : nat) (s : sock) :
  same_but_input s (with_input segs n s).
Proof. by repeat split. Qed.

Lemma same_but_input_usable (s s' : sock) :
  same_but_input s s' -> usable s' = usable s.
Proof. intros (H1&_&_&H2). unfold usable. by rewrite H1, H2. Qed.

Lemma reads_to_refl (h : nat) (s : sock) (w : world) :
  sockets w !! h = Some s -> reads_to h (stream s) w w.
Proof.
  intros H. exists s, s. split_and!; try done.
  by rewrite put_sock_id.
Qed.

Lemma reads_to_trans (h : nat) (r1 r2 : bytes) (w1 w2 w3 : world) :
  reads_to h r1 w1 w2 -> reads_to h r2 w2 w3 -> reads_to h r2 w1 w3.
Proof.
  intros (s1 & s2 & H1 & -> & Hs12 & _) (s2' & s3 & H2 & -> & Hs23 & Hr).
  rewrite (lookup_put_sock _ _ _ _ H1) in H2. injection H2 as <-.
  exists s1, s3. split_and!;
    eauto using put_sock_put_sock, same_but_input_trans.
Qed.

(** What [reads_to] leaves in place. *)
Lemma reads_to_lookup (h : nat) (rest : bytes) (w w' : world) :
  reads_to h rest w w' ->
  exists s s', sockets w !! h = Some s /\ sockets w' !! h = Some s' /\
               same_but_input s s' /\ stream s' = rest.
Proof.
  intros (s & s' & H & -> & Hs & Hr). exists s, s'.
  split_and!; try done. by eapply lookup_put_sock.
Qed.

Lemma reads_to_frame (h : nat) (rest : bytes) (w w' : world) :
  reads_to h rest w w' ->
  procs w' = procs w /\ peer w' = peer w /\ can_spawn w' = can_spawn w /\
  length (sockets w') = length (sockets w) /\
  (forall i, i <> h -> sockets w' !! i = sockets w !! i).
Proof.
  intros (s & s' & H & -> & Hs & Hr). split_and!; try done.
  - cbn. apply length_insert.
  - intros i Hi. by apply lookup_put_sock_ne.
Qed.

End NetFacts.

(* ===================================================================== *)
(** * Reading one message *)
(* ===================================================================== *)

Module ReadFacts.
Import Text Py Json Net Dap Flat TextFacts NetFacts.

Lemma bind_ok {S A B} (m : M S A) (k : A -> M S B) s a s' :
  m s = (Ok a, s') -> bind m k s = k a s'.
Proof. intros H. unfold bind. by rewrite H. Qed.

Lemma bind_raise {S A B} (m : M S A) (k : A -> M S B) s e s' :
  m s = (Raise e, s') -> bind m k s = (Raise e, s').
Proof. intros H. unfold bind. by rewrite H. Qed.

Lemma bind_blocked {S A B} (m : M S A) (k : A -> M S B) s s' :
  m s = (Blocked, s') -> bind m k s = (Blocked, s').
Proof. intros H. unfold bind. by rewrite H. Qed.

Lemma bind_out_of_fuel {S A B} (m : M S A) (k : A -> M S B) s s' :
  m s = (OutOfFuel, s') -> bind m k s = (OutOfFuel, s').
Proof. intros H. unfold bind. by rewrite H. Qed.

Lemma reads_to_ready h rest w w' s :
  ready h w s -> reads_to h rest w w' ->
  exists s', ready h w' s' /\ stream s' = rest /\ at_end s' = at_end s /\
             outbound s' = outbound s.
Proof.
  intros [Hl Hu] (s0 & s' & Hl0 & Hl' & Hs & Hr)%reads_to_lookup.
  rewrite Hl in Hl0. injection Hl0 as <-.
  exists s'. unfold ready. rewrite (same_but_input_usable _ _ Hs).
  destruct Hs as (_ & ? & ? & _). done.
Qed.

Section WithClient.
Context (c : DAPClient) (h : nat) (Hc : socket c = Some h).

Lemma self_socket_some (w : world) : self_socket (c, w) = (Ok h, (c, w)).
Proof using Hc. unfold self_socket, self_, bind. cbn. by rewrite Hc. Qed.

Lemma sys_recv_data (n : Z) (w : world) (s : sock) :
  ready h w s -> (0 < n)%Z -> stream s <> [] ->
  exists data rest w',
    sys (sock_recv h n) (c, w) = (Ok data, (c, w')) /\
    data <> [] /\ length data <= Z.to_nat n /\
    stream s = data ++ rest /\ reads_to h rest w w'.
Proof.
  intros [Hl Hu] Hn Hne.
  unfold sys, zoom, sock_recv. cbn. rewrite Hl, Hu.
  pose proof (take_seg_spec (Z.to_nat n) (inbound s)) as Hspec.
  destruct (take_seg (Z.to_nat n) (inbound s)) as [[data rest]|].
  - destruct Hspec as (H1 & H2 & H3); [lia|].
    eexists data, (List.concat rest), _. split; [reflexivity|].
    split_and!; try done.
    exists s, (with_input rest (S (recv_calls s)) s).
    split_and!; done.
  - exfalso. apply Hne, Hspec. lia.
Qed.

Lemma sys_recv_end (n : Z) (w : world) (s : sock) :
  ready h w s -> (0 < n)%Z -> stream s = [] ->
  exists w',
    sys (sock_recv h n) (c, w) = (end_recv (at_end s), (c, w')) /\
    reads_to h [] w w'.
Proof.
  intros [Hl Hu] Hn He.
  unfold sys, zoom, sock_recv. cbn. rewrite Hl, Hu.
  pose proof (take_seg_spec (Z.to_nat n) (inbound s)) as Hspec.
  destruct (take_seg (Z.to_nat n) (inbound s)) as [[data rest]|].
  - destruct Hspec as (H1 & H2 & H3); [lia|].
    unfold stream in He. rewrite He in H3. by destruct data.
  - exists (put_sock h (with_input [] (S (recv_calls s)) s) w). split.
    + unfold end_recv, put_sock, with_input.
      destruct (at_end s); reflexivity.
    + exists s, (with_input [] (S (recv_calls s)) s).
      split_and!; done.
Qed.

Section WithLib.
Context {lib : PyLib}.

Lemma read_headers_unfold (fuel : nat) (headers : bytes) :
  read_headers fuel headers =
  if contains (crlf ++ crlf) headers then ret headers
  else
    match fuel with
    | O => out_of_fuel
    | S f =>
        bind self_socket (fun h =>
        bind (sys (sock_recv h 1)) (fun chunk =>
        read_headers f (headers ++ chunk)))
    end.
Proof. by destruct fuel. Qed.

Lemma flat_headers_unfold (headers st : bytes) :
  flat_headers headers st =
  if contains (crlf ++ crlf) headers then Some (headers, st)
  else
    match st with
    | [] => None
    | b :: r => flat_headers (headers ++ [b]) r
    end.
Proof. by destruct st. Qed.

(** The header block and the rest make up the stream. *)
Lemma flat_headers_app (headers st hd rest : bytes) :
  flat_headers headers st = Some (hd, rest) ->
  exists used, st = used ++ rest /\ hd = headers ++ used.
Proof.
  revert headers. induction st as [|b st IH]; intros headers;
    rewrite flat_headers_unfold;
    destruct (contains (crlf ++ crlf) headers).
  - intros [= <- <-]. exists []. split; by rewrite ?app_nil_r.
  - done.
  - intros [= <- <-]. exists []. split; by rewrite ?app_nil_r.
  - intros (used & -> & ->)%IH. exists (b :: used).
    split; [done|]. by rewrite <- app_assoc.
Qed.

(** At a closed connection the header loop never ends. *)
Lemma read_headers_spin (fuel : nat) (headers : bytes) (w : world) (s : sock) :
  contains (crlf ++ crlf) headers = false ->
  ready h w s -> stream s = [] -> at_end s = PeerClosed ->
  exists w', read_headers fuel headers (c, w) = (OutOfFuel, (c, w')) /\
             reads_to h [] w w'.
Proof using Hc.
  intros Hno. revert w s.
  induction fuel as [|f IH]; intros w s Hr He Hend;
    rewrite read_headers_unfold, Hno.
  - exists w. split; [done|]. rewrite <- He. apply reads_to_refl, Hr.
  - destruct (sys_recv_end 1 w s Hr) as (w1 & Hrecv & Hw1); [lia|done|].
    rewrite Hend in Hrecv. cbn [end_recv] in Hrecv.
    destruct (reads_to_ready _ _ _ _ _ Hr Hw1) as (s1 & Hr1 & He1 & Hend1 & _).
    destruct (IH w1 s1 Hr1 He1) as (w' & Hrun & Hw'); [congruence|].
    exists w'. split; [|by eapply reads_to_trans].
    erewrite bind_ok by apply self_socket_some.
    erewrite bind_ok by exact Hrecv.
    by rewrite app_nil_r.
Qed.

(** The header loop finds the header block of the flat stream. *)
Lemma read_headers_flat (fuel : nat) (headers : bytes) (w : world) (s : sock) :
  ready h w s -> length (stream s) < fuel ->
  exists w',
    read_headers fuel headers (c, w) =
      (match flat_headers headers (stream s) with
       | Some (hd, _) => Ok hd
       | None => end_outcome (at_end s)
       end, (c, w')) /\
    reads_to h (match flat_headers headers (stream s) with
                | Some (_, rest) => rest
                | None => []
                end) w w'.
Proof using Hc.
  revert headers w s.
  induction fuel as [|f IH]; intros headers w s Hr Hlen; [lia|].
  rewrite read_headers_unfold, flat_headers_unfold.
  destruct (contains (crlf ++ crlf) headers) eqn:Hno.
  { exists w. split; [done|]. apply reads_to_refl, Hr. }
  destruct (stream s) as [|b r] eqn:Hs.
  - destruct (sys_recv_end 1 w s Hr) as (w1 & Hrecv & Hw1); [lia|done|].
    erewrite bind_ok by apply self_socket_some.
    destruct (at_end s) eqn:Hend; cbn [end_recv end_outcome] in *.
    + destruct (reads_to_ready _ _ _ _ _ Hr Hw1)
        as (s1 & Hr1 & He1 & Hend1 & _).
      destruct (read_headers_spin f headers w1 s1 Hno Hr1 He1)
        as (w' & Hrun & Hw'); [congruence|].
      exists w'. split; [|by eapply reads_to_trans].
      erewrite bind_ok by exact Hrecv. by rewrite app_nil_r.
    + exists w1. split; [|done]. by erewrite bind_raise by exact Hrecv.
    + exists w1. split; [|done]. by erewrite bind_blocked by exact Hrecv.
  - destruct (sys_recv_data 1 w s Hr)
      as (data & rest & w1 & Hrecv & Hne & Hlen1 & Hsplit & Hw1);
      [lia|by rewrite Hs|].
    assert (data = [b] /\ rest = r) as [-> ->].
    { rewrite Hs in Hsplit. destruct data as [|x [|y data]]; cbn in *;
        [done| |lia]. by injection Hsplit as -> ->. }
    destruct (reads_to_ready _ _ _ _ _ Hr Hw1) as (s1 & Hr1 & He1 & Hend1 & _).
    destruct (IH (headers ++ [b]) w1 s1 Hr1) as (w' & Hrun & Hw').
    { rewrite He1. cbn in Hlen. lia. }
    rewrite He1, Hend1 in *.
    exists w'. split; [|by eapply reads_to_trans].
    erewrite bind_ok by apply self_socket_some.
    by erewrite bind_ok by exact Hrecv.
Qed.


Lemma read_body_unfold (fuel : nat) (content_length : Z) (body : bytes) :
  read_body fuel content_length body =
  if (Z.of_nat (length body) <? content_length)%Z then
    match fuel with
    | O => out_of_fuel
    | S f =>
        bind self_socket (fun h =>
        bind (sys (sock_recv h (content_length - Z.of_nat (length body))))
          (fun chunk => read_body f content_length (body ++ chunk)))
    end
  else ret body.
Proof. by destruct fuel. Qed.

(** At a closed connection the body loop never ends either. *)
Lemma read_body_spin (fuel : nat) (n : Z) (body : bytes) (w : world) (s : sock) :
  (Z.of_nat (length body) < n)%Z ->
  ready h w s -> stream s = [] -> at_end s = PeerClosed ->
  exists w', read_body fuel n body (c, w) = (OutOfFuel, (c, w')) /\
             reads_to h [] w w'.
Proof using Hc.
  intros Hlt%Z.ltb_lt. revert w s.
  induction fuel as [|f IH]; intros w s Hr He Hend;
    rewrite read_body_unfold, Hlt.
  - exists w. split; [done|]. rewrite <- He. apply reads_to_refl, Hr.
  - apply Z.ltb_lt in Hlt.
    destruct (sys_recv_end (n - Z.of_nat (length body)) w s Hr)
      as (w1 & Hrecv & Hw1); [lia|done|].
    rewrite Hend in Hrecv. cbn [end_recv] in Hrecv.
    destruct (reads_to_ready _ _ _ _ _ Hr Hw1) as (s1 & Hr1 & He1 & Hend1 & _).
    destruct (IH w1 s1 Hr1 He1) as (w' & Hrun & Hw'); [congruence|].
    exists w'. split; [|by eapply reads_to_trans].
    erewrite bind_ok by apply self_socket_some.
    erewrite bind_ok by exact Hrecv.
    by rewrite app_nil_r.
Qed.

(** The body loop gathers the next bytes of the flat stream, as many as
    are still wanted, however they are cut into segments. *)
Lemma read_body_flat (fuel : nat) (n : Z) (body : bytes) (w : world) (s : sock) :
  ready h w s -> length (stream s) < fuel ->
  let need := Z.to_nat (n - Z.of_nat (length body)) in
  exists w',
    read_body fuel n body (c, w) =
      (if Nat.leb need (length (stream s))
       then Ok (body ++ take need (stream s))
       else end_outcome (at_end s), (c, w')) /\
    reads_to h (if Nat.leb need (length (stream s))
                then drop need (stream s) else []) w w'.
Proof using Hc.
  revert body w s.
  induction fuel as [|f IH]; intros body w s Hr Hlen need; [lia|].
  rewrite read_body_unfold.
  destruct (Z.ltb_spec (Z.of_nat (length body)) n) as [Hlt|Hge].
  2:{ assert (need = 0) as -> by (subst need; lia).
      cbn [Nat.leb]. rewrite take_0, drop_0, app_nil_r.
      exists w. split; [done|]. apply reads_to_refl, Hr. }
  assert (0 < need) as Hneed by (subst need; lia).
  erewrite bind_ok by apply self_socket_some.
  destruct (stream s) as [|b r] eqn:Hs.
  - destruct (Nat.leb_spec need (length (@nil N))) as [Hle|_];
      [cbn in Hle; lia|].
    destruct (sys_recv_end (n - Z.of_nat (length body)) w s Hr)
      as (w1 & Hrecv & Hw1); [lia|done|].
    destruct (at_end s) eqn:Hend; cbn [end_recv end_outcome] in *.
    + destruct (reads_to_ready _ _ _ _ _ Hr Hw1)
        as (s1 & Hr1 & He1 & Hend1 & _).
      destruct (read_body_spin f n body w1 s1 Hlt Hr1 He1)
        as (w' & Hrun & Hw'); [congruence|].
      exists w'. split; [|by eapply reads_to_trans].
      erewrite bind_ok by exact Hrecv. by rewrite app_nil_r.
    + exists w1. split; [|done]. by erewrite bind_raise by exact Hrecv.
    + exists w1. split; [|done]. by erewrite bind_blocked by exact Hrecv.
  - destruct (sys_recv_data (n - Z.of_nat (length body)) w s Hr)
      as (data & rest & w1 & Hrecv & Hne & Hlen1 & Hsplit & Hw1);
      [lia|by rewrite Hs|].
    fold need in Hlen1.
    rewrite <- Hs, Hsplit in *. clear Hs b r.
    destruct (reads_to_ready _ _ _ _ _ Hr Hw1) as (s1 & Hr1 & He1 & Hend1 & _).
    assert (0 < length data) by (destruct data; [done|cbn; lia]).
    destruct (IH (body ++ data) w1 s1 Hr1) as (w' & Hrun & Hw').
    { rewrite He1. rewrite length_app in Hlen. lia. }
    rewrite He1, Hend1 in *.
    assert (Z.to_nat (n - Z.of_nat (length (body ++ data)))
            = need - length data) as Hneed1
      by (rewrite length_app; subst need; lia).
    rewrite Hneed1 in *.
    exists w'. split.
    + erewrite bind_ok by exact Hrecv. rewrite Hrun.
      rewrite length_app.
      destruct (Nat.leb_spec (need - length data) (length rest)),
               (Nat.leb_spec need (length data + length rest)); try lia;
        [|done].
      by rewrite take_app_ge, <- app_assoc by lia.
    + eapply reads_to_trans; [exact Hw1|].
      rewrite length_app.
      destruct (Nat.leb_spec (need - length data) (length rest)),
               (Nat.leb_spec need (length data + length rest)); try lia;
        [|done].
      by rewrite drop_app_ge by lia.
Qed.

Lemma decode_eq (b : bytes) (st : cstate) :
  decode b st =
  (match utf8_decode b with
   | Some s => Ok s
   | None => Raise UnicodeDecodeError
   end, st).
Proof. unfold decode. by destruct (utf8_decode b). Qed.

Lemma item_eq (l : list pystr) (i : nat) (st : cstate) :
  item l i st =
  (match l !! i with
   | Some x => Ok x
   | None => Raise IndexError
   end, st).
Proof. unfold item. by destruct (l !! i). Qed.

(** [read_response] reads what [read_flat] reads, whatever the segments,
    once the fuel covers the bytes at hand. *)
Lemma read_response_flat (fuel : nat) (w : world) (s : sock) :
  ready h w s -> length (stream s) < fuel ->
  exists w',
    read_response fuel (c, w) =
      (fst (read_flat (stream s) (at_end s)), (c, w')) /\
    reads_to h (snd (read_flat (stream s) (at_end s))) w w'.
Proof using Hc.
  intros Hr Hlen. unfold read_response, read_flat.
  destruct (read_headers_flat fuel [] w s Hr Hlen) as (w1 & Hhd & Hw1).
  destruct (flat_headers [] (stream s)) as [[headers rest]|] eqn:Hfh.
  2:{ exists w1. split; [|done].
      destruct (at_end s); cbn [end_outcome] in *;
        [by erewrite bind_out_of_fuel by exact Hhd
        |by erewrite bind_raise by exact Hhd
        |by erewrite bind_blocked by exact Hhd]. }
  erewrite bind_ok by exact Hhd. unfold parse_length.
  unfold bind at 1. rewrite decode_eq.
  destruct (utf8_decode headers) as [header_str|]; [|by exists w1].
  unfold bind at 1. rewrite item_eq.
  destruct (split (lit "Content-Length: ") header_str !! 1) as [after|];
    [|by exists w1].
  unfold bind at 1. rewrite item_eq.
  destruct (split crlf after !! 0) as [field|]; [|by exists w1].
  unfold bind at 1.
  destruct (py_int field) as [n|]; [|by exists w1].
  cbn [ret].
  destruct (reads_to_ready _ _ _ _ _ Hr Hw1) as (s1 & Hr1 & He1 & Hend1 & _).
  destruct (read_body_flat fuel n [] w1 s1 Hr1) as (w2 & Hbody & Hw2).
  { rewrite He1. apply flat_headers_app in Hfh as (used & Hst & _).
    rewrite Hst, length_app in Hlen. lia. }
  cbn [length app] in Hbody, Hw2.
  rewrite Z.sub_0_r, He1 in Hbody, Hw2. rewrite Hend1 in Hbody.
  assert (reads_to h (if Z.to_nat n <=? length rest
                      then drop (Z.to_nat n) rest else []) w w2) as Hw
    by (by eapply reads_to_trans).
  exists w2. destruct (Z.to_nat n <=? length rest).
  2:{ split; [|done].
      destruct (at_end s); cbn [end_outcome] in *;
        [by erewrite bind_out_of_fuel by exact Hbody
        |by erewrite bind_raise by exact Hbody
        |by erewrite bind_blocked by exact Hbody]. }
  split; [|done].
  erewrite bind_ok by exact Hbody.
  unfold bind, parse_body. rewrite decode_eq.
  destruct (utf8_decode (take (Z.to_nat n) rest)) as [text|]; [|done].
  by destruct (json_loads text).
Qed.

End WithLib.
End WithClient.
End ReadFacts.

(* ===================================================================== *)
(** * Frames *)
(* ===================================================================== *)

Module FrameFacts.
Import Text Py Json Net Dap Flat TextFacts JsonFacts NetFacts ReadFacts.

Lemma digit_not (a : N) (s : pystr) :
  Forall digit s -> (a < 48 \/ 57 < a)%N -> Forall (fun c => c <> a) s.
Proof.
  intros Hs Ha. eapply Forall_impl; [exact Hs|].
  unfold digit. intros c Hc. lia.
Qed.

Lemma lit_not (a : N) (s : list N) :
  forallb (fun c => negb (c =? a)%N) s = true -> Forall (fun c => c <> a) s.
Proof.
  intros H. apply List.Forall_forall. intros c Hc.
  eapply forallb_forall in H; [|exact Hc].
  apply negb_true_iff, N.eqb_neq in H. done.
Qed.


Lemma header_line_no_cr (n : nat) :
  Forall (fun c => c <> 13%N)
    (lit "Content-Length: " ++ str_of_int (Z.of_nat n)).
Proof.
  apply Forall_app. split.
  - by apply lit_not.
  - apply digit_not; [apply str_of_nat_digit|lia].
Qed.

Lemma flat_headers_scan (acc p rest : bytes) :
  Forall (fun c => c <> 13%N) (acc ++ p) ->
  flat_headers acc (p ++ crlf ++ crlf ++ rest) =
  Some (acc ++ p ++ crlf ++ crlf, rest).
Proof.
  revert acc. induction p as [|x p IH]; intros acc Hno.
  - rewrite app_nil_r in Hno. cbn [app crlf].
    assert (forall t, contains [13; 10; 13; 10]%N (acc ++ t)
                      = contains [13; 10; 13; 10]%N t) as Hskip
      by (intros t; by apply contains_skip).
    rewrite flat_headers_unfold. unfold crlf. cbn [app].
    rewrite contains_absent by exact Hno.
    do 3 (rewrite flat_headers_unfold; unfold crlf; cbn [app];
          rewrite <- ?app_assoc; cbn [app]; rewrite Hskip;
          cbn [contains startswith orb andb N.eqb Pos.eqb]).
    rewrite flat_headers_unfold; unfold crlf; cbn [app].
    rewrite <- ?app_assoc; cbn [app]. rewrite Hskip. done.
  - cbn [app flat_headers]. unfold crlf at 1 2. cbn [app].
    rewrite contains_absent
      by (apply Forall_app in Hno as [? _]; done).
    rewrite IH by (by rewrite <- app_assoc).
    by rewrite <- app_assoc.
Qed.

Lemma flat_headers_frame (n : nat) (rest : bytes) :
  flat_headers [] (header_of n ++ rest) = Some (header_of n, rest).
Proof.
  unfold header_of.
  rewrite <- !app_assoc, (app_assoc (lit _) (str_of_int _)).
  rewrite flat_headers_scan by apply header_line_no_cr.
  cbn [app]. by rewrite <- !app_assoc.
Qed.

Lemma split_header (x : pystr) :
  contains (lit "Content-Length: ") x = false ->
  split (lit "Content-Length: ") (lit "Content-Length: " ++ x) = [[]; x].
Proof.
  intros H. etransitivity.
  - exact (split_go_first 67 (lit "ontent-Length: ") [] [] x
             (List.Forall_nil _)).
  - cbn [rev app]. f_equal. exact (split_go_none _ [] x H).
Qed.

Lemma split_crlf_first (d y : pystr) :
  Forall (fun c => c <> 13%N) d -> split crlf (d ++ crlf ++ y) !! 0 = Some d.
Proof.
  intros H. unfold split.
  etransitivity;
    [apply (f_equal (fun l : list pystr => l !! 0));
     exact (split_go_first 13 [10%N] [] d y H)|done].
Qed.

Section WithLib.
Context {lib : PyLib}.

Lemma parse_length_header (n : nat) :
  py_int (str_of_int (Z.of_nat n)) = Some (Z.of_nat n) ->
  parse_length (header_of n) = Ok (Z.of_nat n).
Proof.
  intros Hint. unfold parse_length, header_of.
  rewrite utf8_decode_ascii.
  2:{ rewrite !is_ascii_app, str_of_int_ascii. done. }
  pose proof (str_of_nat_digit n) as Hd.
  rewrite split_header.
  2:{ apply (contains_absent 67). apply Forall_app. split.
      - apply digit_not; [done|lia].
      - by apply lit_not. }
  cbn [lookup list_lookup].
  rewrite split_crlf_first by (apply digit_not; [done|lia]).
  by rewrite Hint.
Qed.


End WithLib.
End FrameFacts.

(* ===================================================================== *)
(** * The requests of the client *)
(* ===================================================================== *)

Module ClientFacts.
Import Text Py Json Net Dap Flat Effects.
Import TextFacts JsonFacts NetFacts ReadFacts FrameFacts.

Lemma encode_ascii (s : pystr) (st : cstate) :
  is_ascii s = true -> encode s st = (Ok s, st).
Proof. intros H. unfold encode. by rewrite utf8_encode_ascii. Qed.

Lemma full_message_ascii (n : Z) (message : pystr) :
  is_ascii message = true -> is_ascii (full_message_of n message) = true.
Proof.
  intros H. unfold full_message_of.
  by rewrite !is_ascii_app, str_of_int_ascii, H.
Qed.


(** ** What the steps preserve *)

#[export] Instance same_but_input_preorder : PreOrder same_but_input.
Proof.
  split; [intros s; apply same_but_input_refl|].
  intros s1 s2 s3. apply same_but_input_trans.
Qed.

#[export] Instance same_life_preorder : PreOrder same_life.
Proof.
  split; [by intros s|].
  intros s1 s2 s3 (?&?&?) (?&?&?). unfold same_life. split_and!; congruence.
Qed.

#[export] Instance quiet_preorder : PreOrder quiet.
Proof.
  split.
  - intros w. by repeat split.
  - intros w1 w2 w3 (?&?&?&?) (?&?&?&?).
    unfold quiet. split_and!; try congruence. by etransitivity.
Qed.

#[export] Instance calm_preorder : PreOrder calm.
Proof.
  split.
  - intros w. by repeat split.
  - intros w1 w2 w3 (?&?&?&?) (?&?&?&?).
    unfold calm. split_and!; try congruence. by etransitivity.
Qed.



#[export] Instance reads_only_preorder : PreOrder reads_only.
Proof.
  split.
  - intros st. by split.
  - intros st1 st2 st3 [? ?] [? ?]. split; [congruence|by etransitivity].
Qed.

#[export] Instance client_step_preorder : PreOrder client_step.
Proof.
  split.
  - intros st. by repeat split.
  - intros st1 st2 st3 (?&?&?) (?&?&?).
    unfold client_step. split_and!; try congruence. by etransitivity.
Qed.

#[export] Instance debugger_step_preorder : PreOrder debugger_step.
Proof.
  split.
  - intros st. by repeat split.
  - intros st1 st2 st3 (?&?&?) (?&?&?).
    unfold debugger_step. split_and!; try congruence. by etransitivity.
Qed.


Lemma preserves_ret {S A} (R : relation S) `{!PreOrder R} (a : A) : preserves R (ret a).
Proof. intros s. reflexivity. Qed.

Lemma preserves_raise {S A} (R : relation S) `{!PreOrder R} (e : exn) : preserves R (@raise S A e).
Proof. intros s. reflexivity. Qed.

Lemma preserves_out_of_fuel {S A} (R : relation S) `{!PreOrder R} : preserves R (@out_of_fuel S A).
Proof. intros s. reflexivity. Qed.

Lemma preserves_lift {S A} (R : relation S) `{!PreOrder R} (o : outcome A) : preserves R (lift o).
Proof. intros s. reflexivity. Qed.

Lemma preserves_bind {S A B} (R : relation S) `{!PreOrder R} (m : M S A) (k : A -> M S B) :
  preserves R m -> (forall a, preserves R (k a)) -> preserves R (bind m k).
Proof.
  intros Hm Hk s. unfold bind. specialize (Hm s).
  destruct (m s) as [[a| | |] s']; cbn [snd] in *; try done.
  etransitivity; [exact Hm|]. apply Hk.
Qed.




Lemma quiet_put_sock (h : nat) (s s' : sock) (w : world) :
  sockets w !! h = Some s -> same_but_input s s' -> quiet w (put_sock h s' w).
Proof.
  intros Hl Hs. repeat split. cbn.
  rewrite <- (list_insert_id (sockets w) h s Hl) at 1.
  by apply Forall2_insert.
Qed.


Lemma sock_recv_quiet (h : nat) (n : Z) : preserves quiet (sock_recv h n).
Proof.
  intros w. unfold sock_recv.
  destruct (sockets w !! h) as [s|] eqn:Hl; [|reflexivity].
  destruct (usable s); [|reflexivity].
  destruct (take_seg (Z.to_nat n) (inbound s)) as [[data rest]|]; cbn [snd];
    by eapply quiet_put_sock.
Qed.

Lemma sys_reads_only {A} (m : M world A) :
  preserves quiet m -> preserves reads_only (sys m).
Proof.
  intros H [c w]. unfold sys, zoom. cbn [snd fst]. specialize (H w).
  destruct (m w) as [o w']. by split.
Qed.

Lemma self_socket_reads_only : preserves reads_only self_socket.
Proof.
  intros [c w]. unfold self_socket, self_, bind. cbn.
  destruct (socket c); reflexivity.
Qed.

Section WithLib.
Context {lib : PyLib}.

(** [send_request], step by step: the counter advances first; the call
    may be stopped there, by [json.dumps] or by [print]; without a usable
    socket it raises at the [send]; otherwise one frame goes out and the
    call returns or waits, as the flag says. *)
Lemma send_request_unfold (fuel : nat) (command : pystr) (arguments : value)
    (wait : bool) (c : DAPClient) (w : world) :
  send_request fuel command arguments wait (c, w) =
  match stopped_by command arguments c with
  | Some e => (Raise e, (bump c, w))
  | None =>
      match socket c with
      | None => (Raise AttributeError, (bump c, w))
      | Some h =>
          match sockets w !! h with
          | None => (Raise OSError, (bump c, w))
          | Some s =>
              if usable s then
                let w1 :=
                  put_sock h
                    (with_output (sent_frame (seq c) command arguments) s) w in
                if wait then await_response fuel fuel command (bump c, w1)
                else (Ok VNone, (bump c, w1))
              else (Raise OSError, (bump c, w))
          end
      end
  end.
Proof.
  unfold send_request, stopped_by, write_error.
  erewrite bind_ok by reflexivity.
  erewrite bind_ok by reflexivity.
  cbn [fst snd].
  change (_, w) with (bump c, w).
  unfold json_dumps at 1.
  destruct (dumps_error (request_of (seq c) command arguments)) as [e|];
    [done|].
  erewrite bind_ok by reflexivity.
  set (message := dumps (request_of (seq c) command arguments)).
  assert (is_ascii message = true) as Hm by apply dumps_ascii.
  erewrite bind_ok by (by apply encode_ascii).
  unfold py_print at 1.
  destruct (print_error (lit "Sending: " ++ command)) as [e|]; [done|].
  erewrite bind_ok by reflexivity.
  destruct (socket c) as [h|] eqn:Hc.
  2:{ unfold self_socket, self_, bind. cbn. by rewrite Hc. }
  erewrite bind_ok by (apply self_socket_some; exact Hc).
  erewrite bind_ok by (by apply encode_ascii, full_message_ascii).
  unfold bind at 1. unfold sys, zoom, sock_send. cbn [snd fst].
  destruct (sockets w !! h) as [s|]; [|done].
  destruct (usable s); [|done].
  by destruct wait.
Qed.


Lemma read_headers_reads_only (fuel : nat) (headers : bytes) :
  preserves reads_only (read_headers fuel headers).
Proof.
  revert headers. induction fuel as [|f IH]; intros headers;
    rewrite read_headers_unfold;
    destruct (contains (crlf ++ crlf) headers);
    try apply preserves_ret; try apply preserves_out_of_fuel; try apply _.
  apply preserves_bind; [apply _|apply self_socket_reads_only|intros h].
  apply preserves_bind; [apply _| |intros chunk; apply IH].
  apply sys_reads_only, sock_recv_quiet.
Qed.

Lemma read_body_reads_only (fuel : nat) (n : Z) (body : bytes) :
  preserves reads_only (read_body fuel n body).
Proof.
  revert body. induction fuel as [|f IH]; intros body;
    rewrite read_body_unfold;
    destruct (Z.of_nat (length body) <? n)%Z;
    try apply preserves_ret; try apply preserves_out_of_fuel; try apply _.
  apply preserves_bind; [apply _|apply self_socket_reads_only|intros h].
  apply preserves_bind; [apply _| |intros chunk; apply IH].
  apply sys_reads_only, sock_recv_quiet.
Qed.

Lemma decode_reads_only (b : bytes) : preserves reads_only (decode b).
Proof. intros st. rewrite decode_eq. reflexivity. Qed.

Lemma item_reads_only (l : list pystr) (i : nat) :
  preserves reads_only (item l i).
Proof. intros st. rewrite item_eq. reflexivity. Qed.

Lemma read_response_reads_only (fuel : nat) :
  preserves reads_only (read_response fuel).
Proof.
  unfold read_response.
  apply preserves_bind; [apply _|apply read_headers_reads_only|intros headers].
  apply preserves_bind; [apply _|apply decode_reads_only|intros header_str].
  apply preserves_bind; [apply _|apply item_reads_only|intros after].
  apply preserves_bind; [apply _|apply item_reads_only|intros field].
  apply preserves_bind; [apply _| |intros n].
  { destruct (py_int field); [apply preserves_ret|apply preserves_raise];
      apply _. }
  apply preserves_bind; [apply _|apply read_body_reads_only|intros body].
  apply preserves_bind; [apply _|apply decode_reads_only|intros text].
  destruct (json_loads text); [apply preserves_ret|apply preserves_raise];
    apply _.
Qed.

Lemma get_eq_and_reads_only (response : value) (k1 s1 k2 s2 : pystr) :
  preserves reads_only (get_eq_and response k1 s1 k2 s2).
Proof.
  unfold get_eq_and.
  apply preserves_bind; [apply _|apply preserves_lift; apply _|intros a].
  destruct (eq_str a s1); [|apply preserves_ret; apply _].
  apply preserves_bind; [apply _|apply preserves_lift; apply _|intros b].
  apply preserves_ret; apply _.
Qed.

Lemma await_response_reads_only (inner fuel : nat) (command : pystr) :
  preserves reads_only (await_response inner fuel command).
Proof.
  induction fuel as [|f IH]; cbn [await_response];
    [apply preserves_out_of_fuel; apply _|].
  apply preserves_bind; [apply _|apply read_response_reads_only|intros r].
  do 3 (apply preserves_bind; [apply _|apply preserves_lift; apply _|intros ?]).
  apply preserves_bind; [apply _|apply get_eq_and_reads_only|intros found].
  destruct found; [apply preserves_ret; apply _|apply IH].
Qed.




(** ** Reading frames *)


Lemma field_get (m : value) (k : pystr) (default : value) :
  is_dict m = true ->
  exists x, py_get m k default = Ok x /\
            (default = VNone -> x = field m k).
Proof.
  destruct m; try done. intros _. cbn.
  destruct (lookup_key k d); eauto.
Qed.

Lemma get_eq_and_dict (m : value) (k1 s1 k2 s2 : pystr) (st : cstate) :
  is_dict m = true ->
  get_eq_and m k1 s1 k2 s2 st =
  (Ok (eq_str (field m k1) s1 && eq_str (field m k2) s2), st).
Proof.
  destruct m; try done. intros _. unfold get_eq_and, bind, lift. cbn.
  destruct (lookup_key k1 d) as [a|]; cbn.
  - destruct (eq_str a s1); [|done]. by destruct (lookup_key k2 d).
  - done.
Qed.











(** Whatever the stream holds, a message the loop returns is a response
    to the command. *)
Lemma await_response_returns (inner fuel : nat) (command : pystr)
    (st st' : cstate) (r : value) :
  await_response inner fuel command st = (Ok r, st') ->
  is_response_to command r = true.
Proof.
  revert st. induction fuel as [|f IH]; intros st; [done|].
  cbn [await_response]. unfold bind at 1.
  destruct (read_response inner st) as [[m| | |] st1]; try done.
  unfold bind at 1, lift at 1.
  destruct (py_get m (lit "type") VNone) as [x1| | |] eqn:H1; try done.
  assert (is_dict m = true) as Hd by (by destruct m).
  destruct (field_get m (lit "event") VNone Hd) as (x2 & -> & _).
  unfold bind at 1, lift at 1.
  destruct (field_get m (lit "command") x2 Hd) as (x3 & -> & _).
  unfold bind at 1, lift at 1.
  unfold bind. rewrite get_eq_and_dict by done.
  fold (is_response_to command m).
  destruct (is_response_to command m) eqn:Hm; [|apply IH].
  by intros [= <- _].
Qed.

Lemma get_eq_and_not_dict (m : value) (k1 s1 k2 s2 : pystr) (st : cstate) :
  is_dict m = false ->
  get_eq_and m k1 s1 k2 s2 st = (Raise AttributeError, st).
Proof. by destruct m. Qed.

Lemma await_event_returns (inner fuel : nat) (name : pystr)
    (st st' : cstate) (r : value) :
  await_event inner fuel name st = (Ok r, st') -> is_event name r = true.
Proof.
  revert st. induction fuel as [|f IH]; intros st; [done|].
  cbn [await_event]. unfold bind at 1.
  destruct (read_response inner st) as [[m| | |] st1]; try done.
  unfold bind.
  destruct (is_dict m) eqn:Hd.
  2:{ by rewrite get_eq_and_not_dict. }
  rewrite get_eq_and_dict by done.
  fold (is_event name m).
  destruct (is_event name m) eqn:Hm; [|apply IH].
  by intros [= <- _].
Qed.

End WithLib.
End ClientFacts.

(* ===================================================================== *)
(** * The properties of the client *)
(* ===================================================================== *)

Module Properties.
Import Text Py Json Net Dap Flat Effects.
Import TextFacts JsonFacts NetFacts ReadFacts FrameFacts ClientFacts.

Lemma quiet_lookup (h : nat) (w w' : world) (s : sock) :
  quiet w w' -> sockets w !! h = Some s ->
  exists s', sockets w' !! h = Some s' /\ same_but_input s s'.
Proof.
  intros (_ & _ & _ & H) Hl.
  destruct (Forall2_lookup_l _ _ _ _ _ H Hl) as (s' & ? & ?). eauto.
Qed.

Section WithLib.
Context {lib : PyLib}.

(** C10. Every call of [send_request], whatever its command, its
    arguments, its flag and its outcome, leaves the port and the socket
    reference of the client as they were and advances [seq] by exactly
    one. *)
Theorem send_request_changes_seq_only (fuel : nat) (command : pystr)
    (arguments : value) (wait : bool) (c : DAPClient) (w : world) :
  let c' := fst (snd (send_request fuel command arguments wait (c, w))) in
  debug_port c' = debug_port c /\ socket c' = socket c /\
  seq c' = (seq c + 1)%Z.
Proof.
  cbn zeta.
  assert (fst (snd (send_request fuel command arguments wait (c, w)))
          = bump c) as ->; [|done].
  rewrite send_request_unfold.
  destruct (stopped_by command arguments c); [done|].
  destruct (socket c) as [h|]; [|done].
  destruct (sockets w !! h) as [s|]; [|done].
  destruct (usable s); [|done].
  destruct wait; [|done].
  cbn zeta. apply (await_response_reads_only fuel fuel command).
Qed.

(** A call that [json.dumps] or [print] stops raises with the counter
    advanced and nothing else done: nothing is written, nothing is read. *)
Lemma send_request_stopped (fuel : nat) (command : pystr) (arguments : value)
    (wait : bool) (c : DAPClient) (w : world) (e : exn) :
  stopped_by command arguments c = Some e ->
  send_request fuel command arguments wait (c, w) = (Raise e, (bump c, w)).
Proof. intros H. by rewrite send_request_unfold, H. Qed.

(** C9. With [wait_for_response] false, [send_request] on a connected
    socket writes its frame and returns [None] at once: whatever the fuel,
    no [recv] is made and the input of the socket is untouched.  A call
    that [json.dumps] or [print] stops before the frame is written raises
    there, and has read nothing either. *)
Theorem send_request_no_wait_no_read (fuel : nat) (command : pystr)
    (arguments : value) (c : DAPClient) (w : world) (h : nat) (s : sock) :
  socket c = Some h -> ready h w s ->
  (stopped_by command arguments c = None ->
   exists s',
     send_request fuel command arguments false (c, w)
       = (Ok VNone, (bump c, put_sock h s' w)) /\
     inbound s' = inbound s /\ recv_calls s' = recv_calls s /\
     outbound s' = outbound s ++ [sent_frame (seq c) command arguments]) /\
  (forall e,
     stopped_by command arguments c = Some e ->
     send_request fuel command arguments false (c, w)
       = (Raise e, (bump c, w))).
Proof.
  intros Hc [Hl Hu]. split.
  - intros Hgo. rewrite send_request_unfold, Hgo, Hc, Hl, Hu.
    by eexists.
  - intros e. apply send_request_stopped.
Qed.

(** After a call of [send_request] that gets to its [send] on a connected
    socket, exactly one more buffer has been sent: the frame of the
    request, which carries the value [seq] had before the call. *)
Lemma send_request_sends (fuel : nat) (command : pystr) (arguments : value)
    (wait : bool) (c : DAPClient) (w : world) (h : nat) (s : sock) :
  socket c = Some h -> ready h w s ->
  stopped_by command arguments c = None ->
  exists o w' s',
    send_request fuel command arguments wait (c, w) = (o, (bump c, w')) /\
    ready h w' s' /\
    outbound s' = outbound s ++ [sent_frame (seq c) command arguments].
Proof.
  intros Hc [Hl Hu] Hgo. rewrite send_request_unfold, Hgo, Hc, Hl, Hu.
  cbn zeta.
  set (s1 := with_output _ s). set (w1 := put_sock h s1 w).
  assert (ready h w1 s1) as Hr1.
  { split; [by eapply lookup_put_sock|done]. }
  destruct wait.
  2:{ by exists (Ok VNone), w1, s1. }
  pose proof (await_response_reads_only fuel fuel command (bump c, w1))
    as [Hfst Hq].
  destruct (await_response fuel fuel command (bump c, w1)) as [o [c' w']].
  cbn [fst snd] in *. subst c'.
  destruct (quiet_lookup h w1 w' s1 Hq (proj1 Hr1)) as (s' & Hl' & Hs').
  exists o, w', s'. split_and!; try done.
  - split; [done|]. rewrite (same_but_input_usable _ _ Hs'). apply Hr1.
  - by destruct Hs' as (_ & _ & -> & _).
Qed.


(** A run of calls on a connected socket: the counter has advanced once
    for each call, and the buffers sent are the frames of the calls that
    got to their [send], each with the number of its call. *)
Lemma run_requests_sends (calls : list call) :
  forall (c : DAPClient) (w : world) (h : nat) (s : sock),
    socket c = Some h -> ready h w s ->
    exists s',
      fst (run_requests calls (c, w))
        = {| debug_port := debug_port c; socket := socket c;
             seq := seq c + Z.of_nat (length calls) |} /\
      ready h (snd (run_requests calls (c, w))) s' /\
      outbound s' = outbound s ++ List.map call_frame (sending (seq c) calls).
Proof.
  induction calls as [|k calls IH]; intros c w h s Hc Hr.
  - exists s. cbn. rewrite Z.add_0_r, app_nil_r. by destruct c.
  - cbn [run_requests sending].
    destruct (write_error (call_command k)
                (request_of (seq c) (call_command k) (call_arguments k)))
      as [e|] eqn:Hgo.
    + rewrite (send_request_stopped _ _ _ _ _ _ e Hgo). cbn [snd app].
      destruct (IH (bump c) w h s Hc Hr) as (s' & Hfst & Hr' & Hout').
      exists s'. split_and!; try done.
      rewrite Hfst. unfold bump. cbn [debug_port socket seq length].
      f_equal. lia.
    + destruct (send_request_sends (call_fuel k) (call_command k)
                  (call_arguments k) (call_wait k) c w h s Hc Hr Hgo)
        as (o & w1 & s1 & -> & Hr1 & Hout1).
      cbn [snd].
      destruct (IH (bump c) w1 h s1 Hc Hr1) as (s' & Hfst & Hr' & Hout').
      exists s'. split_and!; try done.
      * rewrite Hfst. unfold bump. cbn [debug_port socket seq length].
        f_equal. lia.
      * rewrite Hout', Hout1, <- app_assoc. done.
Qed.

Lemma map_imap {A B C} (f : B -> C) (g : nat -> A -> B) (l : list A) :
  List.map f (imap g l) = imap (fun i x => f (g i x)) l.
Proof.
  revert g. induction l as [|x l IH]; intros g; [done|].
  cbn [imap List.map]. f_equal. apply IH.
Qed.

(** The numbers of the calls that send: each is the number of its call,
    so they are no smaller than their rank and they increase. *)
Lemma sending_call (calls : list call) :
  forall (n : Z) (i : nat) (m : Z) (k : call),
    sending n calls !! i = Some (m, k) ->
    (n + Z.of_nat i <= m)%Z /\
    exists j, calls !! j = Some k /\ m = (n + Z.of_nat j)%Z.
Proof.
  induction calls as [|k0 calls IH]; intros n i m k; [done|].
  cbn [sending].
  destruct (write_error _ _) as [e|]; cbn [app].
  - intros H. destruct (IH _ _ _ _ H) as (Hle & j & Hj & ->).
    split; [lia|]. exists (S j). split; [done|lia].
  - destruct i as [|i].
    + intros [= <- <-]. split; [lia|]. exists 0. split; [done|lia].
    + intros H. destruct (IH _ _ _ _ H) as (Hle & j & Hj & ->).
      split; [lia|]. exists (S j). split; [done|lia].
Qed.

Lemma sending_sorted (calls : list call) (n : Z) :
  StronglySorted Z.lt (List.map fst (sending n calls)).
Proof.
  revert n. induction calls as [|k0 calls IH]; intros n; [constructor|].
  cbn [sending].
  destruct (write_error _ _) as [e|]; cbn [app List.map]; [apply IH|].
  constructor; [apply IH|].
  apply Forall_forall. intros m Hm.
  apply list_elem_of_fmap in Hm as ([m' k] & -> & Hin).
  apply list_elem_of_lookup in Hin as (i & Hi).
  apply sending_call in Hi as (Hle & _). cbn [fst]. lia.
Qed.

Lemma sending_all (calls : list call) :
  forall n : Z,
    (forall j k, calls !! j = Some k ->
       write_error (call_command k)
         (request_of (n + Z.of_nat j) (call_command k) (call_arguments k))
       = None) ->
    sending n calls = imap (fun i k => ((n + Z.of_nat i)%Z, k)) calls.
Proof.
  induction calls as [|k0 calls IH]; intros n Hall; [done|].
  cbn [sending imap].
  pose proof (Hall 0 k0 eq_refl) as H0. rewrite Z.add_0_r in H0.
  rewrite H0. cbn [app]. rewrite Z.add_0_r. f_equal.
  rewrite IH.
  - apply imap_ext. intros i k _. unfold compose. f_equal. lia.
  - intros j k Hj. specialize (Hall (S j) k Hj).
    by replace (n + 1 + Z.of_nat j)%Z with (n + Z.of_nat (S j))%Z by lia.
Qed.

Lemma connect_ok (host : pystr) (port : Z) (c : DAPClient) (w : world) :
  fst (connect host port (c, w)) = Ok tt ->
  exists s,
    fst (snd (connect host port (c, w)))
      = {| debug_port := debug_port c; socket := Some (length (sockets w));
           seq := seq c |} /\
    ready (length (sockets w)) (snd (snd (connect host port (c, w)))) s /\
    outbound s = [].
Proof.
  unfold connect, bind, sys, zoom, socket_new, set_socket, modify,
    sock_connect.
  cbn [fst snd sockets set_sockets].
  rewrite lookup_app_r, Nat.sub_diag by lia.
  cbn [lookup list_lookup close_calls Nat.eqb negb peer set_sockets
       outbound recv_calls].
  destruct (peer w host port) as [[segs e]|]; [|done].
  intros _. eexists. split_and!; [done| |].
  - split.
    + cbn. rewrite list_lookup_insert_eq; [done|].
      rewrite length_app. cbn. lia.
    + done.
  - done.
Qed.

(** C2, as the code has it. In one session, a fresh client once
    connected, the counter starts at 1 and advances on every call of
    [send_request], whatever its flag and its outcome, also when the call
    is stopped before its [send].  A request that is sent carries the
    number of its call: the numbers sent increase strictly, the n-th
    request sent has a [seq] of n or more, and of n when no call was
    stopped, in which case the frames sent are those of the calls, numbered
    1, 2, 3, ... *)
Theorem request_seq_numbers (host : pystr) (port : Z) (calls : list call)
    (w : world) :
  fst (connect host port (DAPClient_init, w)) = Ok tt ->
  let st := run_requests calls (snd (connect host port (DAPClient_init, w))) in
  seq (fst st) = (1 + Z.of_nat (length calls))%Z /\
  StronglySorted Z.lt (List.map fst (sending 1 calls)) /\
  (forall i n k,
     sending 1 calls !! i = Some (n, k) ->
     (1 + Z.of_nat i <= n)%Z /\
     exists j, calls !! j = Some k /\ n = (1 + Z.of_nat j)%Z) /\
  exists s,
    sockets (snd st) !! length (sockets w) = Some s /\
    outbound s = List.map call_frame (sending 1 calls) /\
    ((forall j k,
        calls !! j = Some k ->
        write_error (call_command k)
          (request_of (1 + Z.of_nat j) (call_command k) (call_arguments k))
        = None) ->
     outbound s =
       imap (fun i k => sent_frame (1 + Z.of_nat i)
                          (call_command k) (call_arguments k)) calls).
Proof.
  intros Hok. destruct (connect_ok host port _ w Hok) as (s0 & Hc0 & Hr0 & Ho0).
  destruct (snd (connect host port (DAPClient_init, w))) as [c0 w0].
  cbn [fst snd] in *. subst c0.
  destruct (run_requests_sends calls
              {| debug_port := debug_port DAPClient_init;
                 socket := Some (length (sockets w));
                 seq := seq DAPClient_init |} w0 _ s0 eq_refl Hr0)
    as (s' & Hfst & Hr' & Hout').
  cbn zeta. rewrite Hfst. cbn [seq] in *.
  split_and!; [done|apply sending_sorted|apply sending_call|].
  rewrite Ho0 in Hout'. cbn [app] in Hout'.
  change (seq DAPClient_init) with 1%Z in Hout'.
  exists s'. split_and!; [apply Hr'|done|].
  intros Hall. rewrite Hout', (sending_all calls 1 Hall), map_imap.
  by apply imap_ext.
Qed.

(** C8. [set_breakpoints(p, ls)] on a connected socket sends exactly one
    request, a [setBreakpoints] whose [arguments.source.path] is the
    absolute form of [p] and whose [arguments.breakpoints] lists
    [{"line": l}] for each [l] of [ls], in the order of [ls].  Only a
    request that [json.dumps] or [print] refuses, as for a line number
    beyond the digits of the interpreter, is not sent: the call raises. *)
Theorem set_breakpoints_request (fuel : nat) (file_path : pystr)
    (lines : list Z) (c : DAPClient) (w : world) (h : nat) (s : sock) :
  socket c = Some h -> ready h w s ->
  (stopped_by (lit "setBreakpoints")
     (breakpoints_arguments (abspath file_path) lines) c = None ->
   exists req s',
     sockets (snd (snd (set_breakpoints fuel file_path lines (c, w)))) !! h
       = Some s' /\
     outbound s' = outbound s ++ [frame (dumps req)] /\
     field req (lit "type") = VStr (lit "request") /\
     field req (lit "command") = VStr (lit "setBreakpoints") /\
     field (field (field req (lit "arguments")) (lit "source")) (lit "path")
       = VStr (abspath file_path) /\
     field (field req (lit "arguments")) (lit "breakpoints")
       = VList (List.map (fun l => VDict [(lit "line", VInt l)]) lines)) /\
  (forall e,
     stopped_by (lit "setBreakpoints")
       (breakpoints_arguments (abspath file_path) lines) c = Some e ->
     set_breakpoints fuel file_path lines (c, w) = (Raise e, (bump c, w))).
Proof.
  intros Hc Hr. unfold set_breakpoints. split.
  - intros Hgo.
    destruct (send_request_sends fuel (lit "setBreakpoints")
                (breakpoints_arguments (abspath file_path) lines)
                true c w h s Hc Hr Hgo)
      as (o & w' & s' & Hrun & Hr' & Hout).
    unfold breakpoints_arguments in Hrun. rewrite Hrun.
    eexists _, s'. split_and!; [apply Hr'|exact Hout|done..].
  - intros e Hgo.
    exact (send_request_stopped fuel _ _ true c w e Hgo).
Qed.


(** C5. For every request that [send_request] sends, the [Content-Length]
    written in the header of the frame is the number of bytes of the UTF-8
    encoding of the serialized body, line 31, not the number of its
    characters: the two differ whenever the serialized body holds a
    character of several bytes, and the header then has the number of
    bytes.  ([json.dumps] escapes the characters outside ASCII,
    [JsonFacts.dumps_ascii]: a body of the client holds none.) *)
Theorem content_length_is_byte_length (fuel : nat) (command : pystr)
    (arguments : value) (wait : bool) (c : DAPClient) (w : world) (h : nat)
    (s : sock) :
  socket c = Some h -> ready h w s ->
  stopped_by command arguments c = None ->
  exists encoded s',
    utf8_encode (dumps (request_of (seq c) command arguments)) = Some encoded /\
    sockets (snd (snd (send_request fuel command arguments wait (c, w)))) !! h
      = Some s' /\
    outbound s' = outbound s ++
      [lit "Content-Length: " ++ str_of_int (Z.of_nat (length encoded))
         ++ crlf ++ crlf ++ encoded] /\
    (is_ascii (dumps (request_of (seq c) command arguments)) = false ->
     length (dumps (request_of (seq c) command arguments)) < length encoded).
Proof.
  intros Hc Hr Hgo.
  destruct (send_request_sends fuel command arguments wait c w h s Hc Hr Hgo)
    as (o & w' & s' & -> & Hr' & Hout).
  assert (utf8_encode (dumps (request_of (seq c) command arguments))
          = Some (dumps (request_of (seq c) command arguments))) as Henc
    by apply utf8_encode_ascii, dumps_ascii.
  exists (dumps (request_of (seq c) command arguments)), s'.
  split_and!; [done|apply Hr'|exact Hout|].
  by apply utf8_encode_longer.
Qed.


(** When the peer closes the stream before a whole message has arrived,
    [recv] returns [b""] for ever and [read_response] neither returns nor
    raises: no fuel is enough. *)
Lemma read_response_at_end_of_stream (fuel : nat) (c : DAPClient) (w : world)
    (h : nat) (s : sock) :
  socket c = Some h -> ready h w s -> length (stream s) < fuel ->
  at_end s = PeerClosed ->
  (flat_headers [] (stream s) = None \/
   exists body n,
     stream s = header_of (n + length body) ++ body /\ 0 < n /\
     py_int (str_of_int (Z.of_nat (n + length body)))
       = Some (Z.of_nat (n + length body))) ->
  fst (read_response fuel (c, w)) = OutOfFuel.
Proof.
  intros Hc Hr Hlen Hend Hshort.
  destruct (read_response_flat c h Hc fuel w s Hr Hlen) as (w' & -> & _).
  cbn [fst]. unfold read_flat. rewrite Hend.
  destruct Hshort as [->|(body & n & -> & Hn & Hint)]; [done|].
  rewrite flat_headers_frame, parse_length_header by done.
  rewrite Nat2Z.id.
  destruct (Nat.leb_spec (n + length body) (length body)); [lia|done].
Qed.

(** C4. [read_response] does not depend on the sizes of the reads: on two
    sockets that differ only in how the same bytes are cut into segments,
    it has the same outcome (the same message, for a framed message) and
    leaves the same bytes unread. *)
Theorem read_response_read_size_independent (fuel : nat) (c : DAPClient)
    (h : nat) (w1 w2 : world) (s1 s2 : sock) :
  socket c = Some h -> ready h w1 s1 -> ready h w2 s2 ->
  stream s1 = stream s2 -> at_end s1 = at_end s2 ->
  length (stream s1) < fuel ->
  fst (read_response fuel (c, w1)) = fst (read_response fuel (c, w2)) /\
  exists s1' s2',
    sockets (snd (snd (read_response fuel (c, w1)))) !! h = Some s1' /\
    sockets (snd (snd (read_response fuel (c, w2)))) !! h = Some s2' /\
    stream s1' = stream s2'.
Proof.
  intros Hc Hr1 Hr2 Hs He Hlen.
  destruct (read_response_flat c h Hc fuel w1 s1 Hr1 Hlen)
    as (w1' & -> & Hw1).
  destruct (read_response_flat c h Hc fuel w2 s2 Hr2) as (w2' & -> & Hw2);
    [by rewrite <- Hs|].
  rewrite <- Hs, <- He in *. split; [done|].
  destruct (reads_to_ready _ _ _ _ _ Hr1 Hw1) as (s1' & [Hl1 _] & Hs1 & _).
  destruct (reads_to_ready _ _ _ _ _ Hr2 Hw2) as (s2' & [Hl2 _] & Hs2 & _).
  exists s1', s2'. cbn [snd]. split_and!; [done..|congruence].
Qed.






(** ** The session and its teardown *)









End WithLib.

(** ** The properties on concrete sessions *)

Import Sample.

Lemma send_request_no_wait_no_read_witness :
  exists s',
    send_request (lib := Sample.lib) 0 (lit "attach") (VDict []) false
      (client0, one_sock [wire (event "initialized" (VDict []))] PeerSilent)
    = (Ok VNone,
       (bump client0,
        put_sock 0 s'
          (one_sock [wire (event "initialized" (VDict []))] PeerSilent))) /\
    inbound s' = [wire (event "initialized" (VDict []))] /\
    recv_calls s' = 0 /\
    outbound s' = [] ++ [sent_frame 1 (lit "attach") (VDict [])].
Proof.
  destruct (send_request_no_wait_no_read (lib := Sample.lib) 0 (lit "attach")
              (VDict []) client0
              (one_sock [wire (event "initialized" (VDict []))] PeerSilent) 0
              (open_sock [wire (event "initialized" (VDict []))] PeerSilent))
    as [Hsent _].
  - reflexivity.
  - split; reflexivity.
  - apply Hsent. vm_compute. reflexivity.
Defined.

Lemma request_seq_numbers_witness :
  seq (fst (run_requests (lib := Sample.lib) handshake_calls
              (snd (connect (lit "localhost") 5678
                      (DAPClient_init, listening [] PeerClosed))))) = 4%Z /\
  StronglySorted Z.lt
    (List.map fst (sending (lib := Sample.lib) 1 handshake_calls)) /\
  exists s,
    sockets (snd (run_requests (lib := Sample.lib) handshake_calls
              (snd (connect (lit "localhost") 5678
                      (DAPClient_init, listening [] PeerClosed))))) !! 0
      = Some s /\
    outbound s = [sent_frame 1 (lit "initialize") VNone;
                  sent_frame 2 (lit "attach") (VDict []);
                  sent_frame 3 (lit "configurationDone") VNone].
Proof.
  pose proof (request_seq_numbers (lib := Sample.lib) (lit "localhost") 5678
                handshake_calls (listening [] PeerClosed)) as H.
  cbv zeta in H.
  destruct H as (Hseq & Hsorted & _ & s & Hs & _ & Hall); [reflexivity|].
  split_and!; [exact Hseq|exact Hsorted|].
  exists s. split; [exact Hs|].
  apply Hall. intros [|[|[|j]]] k; intros [= <-]; vm_compute; reflexivity.
Defined.

(** C2, as claimed, fails: the first call of this session holds an integer
    of 4301 digits, which [json.dumps] refuses, line 30, after the counter
    has advanced, line 28.  The call raises [ValueError] and sends nothing;
    the next call sends the first request of the session, and it carries
    the [seq] 2. *)
Lemma first_request_sent_with_seq_2 :
  fst (send_request (lib := Sample.lib) 0 (lit "evaluate") long_arguments false
         (snd (connect (lit "localhost") 5678
                 (DAPClient_init, listening [] PeerClosed))))
    = Raise ValueError /\
  exists s,
    sockets (snd (run_requests (lib := Sample.lib) refused_then_attach
              (snd (connect (lit "localhost") 5678
                      (DAPClient_init, listening [] PeerClosed))))) !! 0
      = Some s /\
    outbound s = [sent_frame 2 (lit "attach") (VDict [])] /\
    field (request_of 2 (lit "attach") (VDict [])) (lit "seq") = VInt 2 /\
    outbound s <> [sent_frame 1 (lit "attach") (VDict [])].
Proof.
  split; [vm_compute; reflexivity|].
  eexists. split; [vm_compute; reflexivity|].
  split_and!; [vm_compute; reflexivity|reflexivity|].
  vm_compute. discriminate.
Qed.

Lemma set_breakpoints_request_witness :
  exists req s',
    sockets (snd (snd (set_breakpoints (lib := Sample.lib) 0
                         (lit "/abs/path/main.py") [10%Z; 20%Z]
                         (client0, one_sock [] PeerSilent)))) !! 0
      = Some s' /\
    outbound s' = [] ++ [frame (dumps req)] /\
    field req (lit "type") = VStr (lit "request") /\
    field req (lit "command") = VStr (lit "setBreakpoints") /\
    field (field (field req (lit "arguments")) (lit "source")) (lit "path")
      = VStr (lit "/abs/path/main.py") /\
    field (field req (lit "arguments")) (lit "breakpoints")
      = VList [VDict [(lit "line", VInt 10)]; VDict [(lit "line", VInt 20)]].
Proof.
  destruct (set_breakpoints_request (lib := Sample.lib) 0
              (lit "/abs/path/main.py") [10%Z; 20%Z] client0
              (one_sock [] PeerSilent) 0 (open_sock [] PeerSilent))
    as [Hsent _].
  - reflexivity.
  - split; reflexivity.
  - apply Hsent. vm_compute. reflexivity.
Defined.

(** A request whose argument holds a character of four bytes in UTF-8:
    [json.dumps] writes it as two escapes of six ASCII characters each, so
    the serialized body holds no character of several bytes, and the
    [Content-Length] sent, 97, is its number of bytes. *)
Example content_length_with_emoji :
  utf8_encode [128512%N] = Some [240; 159; 152; 128]%N /\
  snd (send_request (lib := Sample.lib) 0 (lit "evaluate") emoji_arguments
         false (client0, one_sock [] PeerSilent))
  = (bump client0,
     put_sock 0
       (with_output
          (lit "Content-Length: 97" ++ crlf ++ crlf
             ++ dumps (request_of 1 (lit "evaluate") emoji_arguments))
          (open_sock [] PeerSilent))
       (one_sock [] PeerSilent)) /\
  length (dumps (request_of 1 (lit "evaluate") emoji_arguments)) = 97 /\
  (length <$> utf8_encode (dumps (request_of 1 (lit "evaluate") emoji_arguments)))
  = Some 97.
Proof. vm_compute. repeat split. Qed.

Lemma content_length_is_byte_length_witness :
  exists encoded s',
    utf8_encode (dumps (request_of 1 (lit "evaluate") emoji_arguments))
      = Some encoded /\
    sockets (snd (snd (send_request (lib := Sample.lib) 0 (lit "evaluate")
                         emoji_arguments false
                         (client0, one_sock [] PeerSilent)))) !! 0
      = Some s' /\
    outbound s' = [] ++
      [lit "Content-Length: " ++ str_of_int (Z.of_nat (length encoded))
         ++ crlf ++ crlf ++ encoded] /\
    (is_ascii (dumps (request_of 1 (lit "evaluate") emoji_arguments)) = false ->
     length (dumps (request_of 1 (lit "evaluate") emoji_arguments))
       < length encoded).
Proof.
  apply (content_length_is_byte_length (lib := Sample.lib) 0 (lit "evaluate")
           emoji_arguments false client0 (one_sock [] PeerSilent) 0
           (open_sock [] PeerSilent)).
  - reflexivity.
  - split; reflexivity.
  - vm_compute. reflexivity.
Defined.



(** Scenario A: the response of the adapter to [initialize], delivered
    three bytes at a time, is read back as the object that was sent. *)
Example read_response_scenario_a :
  fst (read_response (lib := Sample.lib) 200
         (client0,
          one_sock (cut 200 3 (wire (response "initialize" (VDict []))))
            PeerClosed))
  = Ok (response "initialize" (VDict [])).
Proof. vm_compute. reflexivity. Qed.

Lemma read_response_read_size_independent_witness :
  fst (read_response (lib := Sample.lib) 200
         (client0,
          one_sock (cut 200 3 (wire (response "initialize" (VDict []))))
            PeerClosed))
  = fst (read_response (lib := Sample.lib) 200
           (client0,
            one_sock [wire (response "initialize" (VDict []))] PeerClosed)) /\
  exists s1' s2',
    sockets (snd (snd (read_response (lib := Sample.lib) 200
         (client0,
          one_sock (cut 200 3 (wire (response "initialize" (VDict []))))
            PeerClosed)))) !! 0 = Some s1' /\
    sockets (snd (snd (read_response (lib := Sample.lib) 200
           (client0,
            one_sock [wire (response "initialize" (VDict []))] PeerClosed))))
      !! 0 = Some s2' /\
    stream s1' = stream s2'.
Proof.
  apply (read_response_read_size_independent (lib := Sample.lib) 200 client0 0
           (one_sock (cut 200 3 (wire (response "initialize" (VDict []))))
              PeerClosed)
           (one_sock [wire (response "initialize" (VDict []))] PeerClosed)
           (open_sock (cut 200 3 (wire (response "initialize" (VDict []))))
              PeerClosed)
           (open_sock [wire (response "initialize" (VDict []))] PeerClosed)).
  - reflexivity.
  - split; reflexivity.
  - split; reflexivity.
  - vm_compute. reflexivity.
  - reflexivity.
  - vm_compute. lia.
Defined.





(** The same session cut short: the adapter resets the connection in the
    middle of the handshake, the exception is caught, and the teardown has
    run all the same. *)
Example teardown_after_reset :
  fst (start_debug_session (lib := Sample.lib) 1300
         (DAPDebugger_init,
          listening (cut 1300 5 (take 500 session_bytes)) PeerReset))
    = Ok tt /\
  List.map close_calls
    (sockets (snd (snd (start_debug_session (lib := Sample.lib) 1300
         (DAPDebugger_init,
          listening (cut 1300 5 (take 500 session_bytes)) PeerReset)))))
    = [1] /\
  procs (snd (snd (start_debug_session (lib := Sample.lib) 1300
         (DAPDebugger_init,
          listening (cut 1300 5 (take 500 session_bytes)) PeerReset))))
    = [{| terminate_calls := 1; wait_calls := 1 |}].
Proof. vm_compute. repeat split. Qed.

(** And when the adapter goes silent instead, the wait never ends and the
    teardown is not reached: the hang the design accepts. *)
Example no_teardown_while_blocked :
  fst (start_debug_session (lib := Sample.lib) 1300
         (DAPDebugger_init,
          listening (cut 1300 5 (take 500 session_bytes)) PeerSilent))
    = Blocked /\
  procs (snd (snd (start_debug_session (lib := Sample.lib) 1300
         (DAPDebugger_init,
          listening (cut 1300 5 (take 500 session_bytes)) PeerSilent))))
    = [{| terminate_calls := 0; wait_calls := 0 |}].
Proof. vm_compute. repeat split. Qed.

End Properties.
